(** * A shallow embedding of [unified_planning/solvers/pddl_solver.py]

    The module drives an external PDDL planner: [run_command] drains the
    child's stdout and stderr under a deadline, [PDDLSolver._plan_from_file]
    parses the plan file line by line with two regular expressions, and
    [PDDLSolver.solve] composes both and classifies the outcome.

    Text is a Python [str] whose code points lie in 0..255, modelled as
    [list ascii]; the character classes [\s] and [\w] of Python's [re] are
    written out for that range. *)

From Stdlib Require Import List Ascii String ZArith Bool Lia.
Import ListNotations.
Open Scope list_scope.

(** ** Text *)

Definition text := list ascii.

Definition lf : ascii := Ascii.ascii_of_nat 10.
Definition cr : ascii := Ascii.ascii_of_nat 13.
Definition lparen : ascii := "("%char.
Definition rparen : ascii := ")"%char.
Definition semicolon : ascii := ";"%char.

Definition is_lf (c : ascii) : bool := Ascii.eqb c lf.
Definition is_cr (c : ascii) : bool := Ascii.eqb c cr.

(** [\s] of Python's [re] on [str] patterns (the same set as [str.isspace]),
    code points 0..255: 9..13, 28..32, 133 and 160. *)
Definition is_space (c : ascii) : bool :=
  let n := nat_of_ascii c in
  ((9 <=? n) && (n <=? 13))%nat || ((28 <=? n) && (n <=? 32))%nat
  || (n =? 133)%nat || (n =? 160)%nat.

(** [\w] of Python's [re] on [str] patterns, code points 0..255:
    the characters for which [str.isalnum()] holds, and ['_']. *)
Definition is_word (c : ascii) : bool :=
  let n := nat_of_ascii c in
  ((48 <=? n) && (n <=? 57))%nat || ((65 <=? n) && (n <=? 90))%nat
  || ((97 <=? n) && (n <=? 122))%nat || (n =? 95)%nat
  || existsb (Nat.eqb n) [170; 178; 179; 181; 185; 186; 188; 189; 190]%nat
  || ((192 <=? n) && (n <=? 214))%nat || ((216 <=? n) && (n <=? 246))%nat
  || ((248 <=? n) && (n <=? 255))%nat.

(** The character class [[\w?-]] of the action-line regex. *)
Definition is_tok (c : ascii) : bool :=
  is_word c || Ascii.eqb c "?"%char || Ascii.eqb c "-"%char.

(** Longest prefix whose characters satisfy [p], and the rest. *)
Fixpoint span (p : ascii -> bool) (s : text) : text * text :=
  match s with
  | [] => ([], [])
  | c :: s' => if p c then let (a, b) := span p s' in (c :: a, b) else ([], s)
  end.

(** ** Reading the plan file: [open(plan_filename)] and [plan.readlines()]

    A file opened in text mode uses universal newlines: ["\r\n"] and a lone
    ["\r"] are translated to ["\n"] when read, and [readlines] then splits
    after every ["\n"], keeping it; the last line may lack one. *)

Fixpoint translate_newlines (s : text) : text :=
  match s with
  | [] => []
  | c :: s' =>
      if is_cr c then
        match s' with
        | c2 :: s'' => if is_lf c2 then lf :: translate_newlines s''
                       else lf :: translate_newlines s'
        | [] => [lf]
        end
      else c :: translate_newlines s'
  end.

Fixpoint split_lines (s : text) : list text :=
  match s with
  | [] => []
  | c :: s' =>
      if is_lf c then [c] :: split_lines s'
      else match split_lines s' with
           | [] => [[c]]
           | l :: ls => (c :: l) :: ls
           end
  end.

Definition readlines (content : text) : list text :=
  split_lines (translate_newlines content).

(** ** [str.split()] with no separator: the maximal runs of non-whitespace. *)

Definition cons_word (w : text) (ws : list text) : list text :=
  match w with [] => ws | _ => w :: ws end.

(** [split_on_aux sep s] is the word that starts [s] (possibly empty) and
    the words after it. *)
Fixpoint split_on_aux (sep : ascii -> bool) (s : text) : text * list text :=
  match s with
  | [] => ([], [])
  | c :: s' =>
      let (w, ws) := split_on_aux sep s' in
      if sep c then ([], cons_word w ws) else (c :: w, ws)
  end.

Definition split_on (sep : ascii -> bool) (s : text) : list text :=
  let (w, ws) := split_on_aux sep s in cons_word w ws.

Definition py_split (s : text) : list text := split_on is_space s.

(** [s] is empty or begins with a separator. *)
Definition starts_sep (sep : ascii -> bool) (s : text) : bool :=
  match s with [] => true | c :: _ => sep c end.

(** ** The two regular expressions of [_plan_from_file]

    [re.match] anchors at the start; [$] matches at the end of the line or
    just before a final ["\n"]. *)

(** [.*$]: [.] is any character but ["\n"]. *)
Fixpoint dot_star_end (s : text) : bool :=
  match s with
  | [] => true
  | c :: s' => if is_lf c then match s' with [] => true | _ => false end
               else dot_star_end s'
  end.

(** The two patterns, verbatim. *)
Definition COMMENT_RE : string := "^\s*(;.*)?$".
Definition ACTION_RE : string := "^\s*\(\s*([\w?-]+)((\s+[\w?-]+)*)\s*\)\s*$".

(** [re.match(COMMENT_RE, line)] is truthy.  [\s*] is greedy and [;]
    is not whitespace, so backtracking into [\s*] never helps. *)
Definition match_blank (line : text) : bool :=
  match snd (span is_space line) with
  | [] => true
  | c :: r => Ascii.eqb c semicolon && dot_star_end r
  end.

(** A blank or comment line in the words of the spec: once leading
    whitespace is trimmed it is empty or begins with [;]. *)
Definition blank_or_comment (line : text) : bool :=
  match snd (span is_space line) with
  | [] => true
  | c :: _ => Ascii.eqb c semicolon
  end.

(** The group 2 of [ACTION_RE]: its iterations, taken greedily.  Each
    iteration consumes at least two characters, so [length s] iterations
    are enough; the result is the text of the group and the rest. *)
Fixpoint params_group (fuel : nat) (s : text) : text * text :=
  match fuel with
  | O => ([], s)
  | S f =>
      let (ws, r) := span is_space s in
      let (tok, r') := span is_tok r in
      match ws, tok with
      | _ :: _, _ :: _ => let (g, rest) := params_group f r' in (ws ++ tok ++ g, rest)
      | _, _ => ([], s)
      end
  end.

(** [re.match(ACTION_RE, line)]:
    [Some (group(1), group(2))] on a match.  The classes [\s], [[\w?-]],
    [\(] and [\)] are pairwise disjoint, so every repetition is maximal in
    any match and the greedy scan below finds the only one. *)
Definition match_action (line : text) : option (text * text) :=
  let r1 := snd (span is_space line) in
  match r1 with
  | c :: r2 =>
      if Ascii.eqb c lparen then
        let r3 := snd (span is_space r2) in
        let (name, r4) := span is_tok r3 in
        match name with
        | [] => None
        | _ :: _ =>
            let (g2, r5) := params_group (List.length r4) r4 in
            match snd (span is_space r5) with
            | c' :: r7 =>
                if Ascii.eqb c' rparen && forallb is_space r7
                then Some (name, g2) else None
            | [] => None
            end
        end
      else None
  | [] => None
  end.

Definition t (s : string) : text := list_ascii_of_string s.

Example readlines_universal :
  readlines (t ("a" ++ String cr "b" ++ String cr (String lf "c") ++ String lf "d"))
  = [t ("a" ++ String lf ""); t ("b" ++ String lf ""); t ("c" ++ String lf ""); t "d"].
Proof. reflexivity. Qed.

Example match_action_ex :
  match_action (t " ( move a  b )  ") = Some (t "move", t " a  b").
Proof. reflexivity. Qed.

Example match_action_bare : match_action (t "move a b") = None.
Proof. reflexivity. Qed.

Example match_blank_ex :
  match_blank (t "  ; comment") = true /\ match_blank (t "   ") = true
  /\ match_blank (t "(a)") = false.
Proof. repeat split; reflexivity. Qed.

(** ** Outcomes of Python code: a return value, a raised exception, or a
    run that is still blocked when the modelled observations end. *)

Inductive up_error :=
| UPException (msg : text)
    (** [raise UPException(...)], the malformed-line error of [_plan_from_file] *)
| UnknownSymbolError (token line : text)
    (** a name absent from the problem's registries *)
| SpawnError (reason : text)
    (** the [OSError] of [asyncio.create_subprocess_exec] *)
| DecodeError (bytes : text)
    (** the [UnicodeDecodeError] of [bytes.decode()] *)
| OSError (reason : text)
    (** the [OSError] of [process.kill()] on a process already gone *)
| CollaboratorError (what : text).
    (** raised by the writer or by [_result_status] *)

Inductive outcome (A : Type) :=
| Returns (a : A)
| Raises (e : up_error)
| Blocked.

Arguments Returns {A} a.
Arguments Raises {A} e.
Arguments Blocked {A}.

Definition bind {A B} (m : outcome A) (k : A -> outcome B) : outcome B :=
  match m with
  | Returns a => k a
  | Raises e => Raises e
  | Blocked => Blocked
  end.

Notation "x <- m ;; k" := (bind m (fun x => k))
  (at level 61, m at next level, right associativity).

(** ** The problem definition: its action and object registries

    [Problem.action] and [Problem.object] belong to [up.model], outside
    this file. *)

Record Action := mkAction { action_name : text }.
Record Object := mkObject { object_name : text }.
Record Problem := mkProblem { problem_actions : list Action; problem_objects : list Object }.

Fixpoint text_eqb (a b : text) : bool :=
  match a, b with
  | [], [] => true
  | x :: a', y :: b' => Ascii.eqb x y && text_eqb a' b'
  | _, _ => false
  end.

(** Modelled from the spec: [Problem.action] and [Problem.object], resolving
    a name by exact, case-sensitive match and failing with
    [UnknownSymbolError] naming the offending token and line. *)
Definition problem_action (pb : Problem) (line name : text) : outcome Action :=
  match find (fun a => text_eqb (action_name a) name) (problem_actions pb) with
  | Some a => Returns a
  | None => Raises (UnknownSymbolError name line)
  end.

Definition problem_object (pb : Problem) (line name : text) : outcome Object :=
  match find (fun o => text_eqb (object_name o) name) (problem_objects pb) with
  | Some o => Returns o
  | None => Raises (UnknownSymbolError name line)
  end.

(** ** Plans *)

(** [ObjectExp(o)], the expression an action parameter is. *)
Inductive FNode := ObjectExp (o : Object).

Record ActionInstance := mkActionInstance {
  ai_action : Action;
  ai_parameters : list FNode }.

Record SequentialPlan := mkSequentialPlan { plan_actions : list ActionInstance }.

(** [for p in res.group(2).split(): parameters.append(ObjectExp(problem.object(p)))] *)
Fixpoint resolve_parameters (pb : Problem) (line : text) (ps : list text)
  : outcome (list FNode) :=
  match ps with
  | [] => Returns []
  | p :: ps' =>
      o <- problem_object pb line p ;;
      rest <- resolve_parameters pb line ps' ;;
      Returns (ObjectExp o :: rest)
  end.

Definition parse_error_message (cls_name : text) : text :=
  t "Error parsing plan generated by " ++ cls_name.

(** The loop [for line in plan.readlines(): ...] of [_plan_from_file];
    [cls_name] is [self.__class__.__name__]. *)
Fixpoint plan_from_lines (cls_name : text) (pb : Problem) (lines : list text)
  : outcome (list ActionInstance) :=
  match lines with
  | [] => Returns []
  | line :: rest =>
      if match_blank line then plan_from_lines cls_name pb rest
      else match match_action line with
           | Some (g1, g2) =>
               action <- problem_action pb line g1 ;;
               parameters <- resolve_parameters pb line (py_split g2) ;;
               actions <- plan_from_lines cls_name pb rest ;;
               Returns (mkActionInstance action parameters :: actions)
           | None => Raises (UPException (parse_error_message cls_name))
           end
  end.

(** [PDDLSolver._plan_from_file(problem, plan_filename)] on a plan file
    whose content is [content]. *)
Definition plan_from_file (cls_name : text) (pb : Problem) (content : text)
  : outcome SequentialPlan :=
  actions <- plan_from_lines cls_name pb (readlines content) ;;
  Returns (mkSequentialPlan actions).

(** A line that matches neither regex of [_plan_from_file]. *)
Definition malformed (line : text) : bool :=
  negb (match_blank line) && match match_action line with None => true | Some _ => false end.



(** ** The structure of a plan text, in the words of the spec

    Each line that is not blank or a comment stands for an action name
    followed by its parameter tokens; the whitespace and the parenthesis
    delimiters around them carry no structure. *)

Definition spec_sep (c : ascii) : bool :=
  is_space c || Ascii.eqb c lparen || Ascii.eqb c rparen.

Definition spec_line_tokens (line : text) : list text := split_on spec_sep line.

Definition spec_structure (content : text) : list (list text) :=
  map spec_line_tokens (filter (fun l => negb (blank_or_comment l)) (readlines content)).

(** Re-serialising a plan on its structure: each action instance as its
    action name followed by the names of its parameter objects. *)
Definition fnode_name (f : FNode) : text :=
  match f with ObjectExp o => object_name o end.

Definition serialize_action (ai : ActionInstance) : list text :=
  action_name (ai_action ai) :: map fnode_name (ai_parameters ai).

Definition serialize_plan (p : SequentialPlan) : list (list text) :=
  map serialize_action (plan_actions p).

(** ** [run_command]

    The child process is modelled by what the runner observes of it: the
    outcome of spawning it, then for every polling cycle the outcome of the
    two bounded reads [asyncio.wait_for(stream.readline(), 0.5)] and the
    value of [time.time()] at the deadline check, whether [process.kill()]
    raises [OSError], and the return code after [process.wait()].  A trace
    that ends before the loop exits stands for a run still in progress. *)

Section RunCommand.

(** Values of [time.time()] and the timeout are floats; their subtraction
    and [>=] are taken as given. *)
Variable Time : Type.
Variable time_sub : Time -> Time -> Time.
Variable time_ge : Time -> Time -> bool.

(** [bytes.decode()]: [None] when it raises [UnicodeDecodeError]. *)
Variable decode : text -> option text.

Inductive read_outcome :=
| ReadLine (line : text)   (** [readline()] returned (the empty line at EOF) *)
| ReadTimeout.             (** [asyncio.TimeoutError] after 0.5 seconds *)

Record poll_cycle := mkPollCycle {
  read_stdout : read_outcome;
  read_stderr : read_outcome;
  clock : Time }.

Record child := mkChild {
  cycles : list poll_cycle;
  kill_raises_oserror : bool;
  returncode : Z }.

Inductive spawn_outcome :=
| Spawned (c : child)
| SpawnFailed (reason : text).

(** [output_string.replace('\r\n', '\n')] *)
Fixpoint replace_crlf (s : text) : text :=
  match s with
  | [] => []
  | c :: s' =>
      if is_cr c then
        match s' with
        | c2 :: s'' => if is_lf c2 then lf :: replace_crlf s'' else c :: replace_crlf s'
        | [] => [c]
        end
      else c :: replace_crlf s'
  end.

(** The local state of the loop: [process_output] and what was written to
    [output_stream]. *)
Record drain_state := mkDrainState {
  proc_out : list text;
  proc_err : list text;
  sink : list text }.

Inductive drain_result :=
| DrainExit (timeout_occoured kill_attempted : bool) (st : drain_state)
| DrainRaised (e : up_error)
| DrainPending (st : drain_state).

Definition read_line (r : read_outcome) : text :=
  match r with ReadLine l => l | ReadTimeout => [] end.

Definition read_ok (r : read_outcome) : bool :=
  match r with ReadLine _ => true | ReadTimeout => false end.

Definition is_nil {A} (l : list A) : bool := match l with [] => true | _ => false end.

(** [output_string = lines[idx].decode().replace(...)], the write to
    [output_stream] when there is one, and
    [process_output[idx].append(output_string)]. *)
Definition record_output (has_stream : bool) (b : text) (to_err : bool)
  (st : drain_state) : up_error + drain_state :=
  match decode b with
  | None => inl (DecodeError b)
  | Some s =>
      let s' := replace_crlf s in
      let sk := if has_stream then sink st ++ [s'] else sink st in
      inr (if to_err then mkDrainState (proc_out st) (proc_err st ++ [s']) sk
           else mkDrainState (proc_out st ++ [s']) (proc_err st) sk)
  end.

(** [process.kill()]: it raises [OSError] (a [ProcessLookupError]) when
    the process is already gone. *)
Definition process_kill (raises : bool) : option up_error :=
  if raises then Some (OSError (t "ProcessLookupError")) else None.

(** [try: process.kill() except OSError: pass]: [Some e] when an
    exception escapes. *)
Definition kill_swallowing_oserror (raises : bool) : option up_error :=
  match process_kill raises with
  | Some (OSError _) => None
  | r => r
  end.

(** [all(oks) and (not lines[0] and not lines[1])]: both reads returned
    and both returned the empty line. *)
Definition eof_cycle (c : poll_cycle) : bool :=
  read_ok (read_stdout c) && read_ok (read_stderr c)
  && is_nil (read_line (read_stdout c)) && is_nil (read_line (read_stderr c)).

(** One iteration of [while True:] on the observations of one cycle. *)
Definition drain_step (timeout : option Time) (start : Time) (has_stream : bool)
  (kill_raises : bool) (c : poll_cycle) (st : drain_state) : drain_result + drain_state :=
  let l0 := read_line (read_stdout c) in
  let l1 := read_line (read_stderr c) in
  if eof_cycle c then inl (DrainExit false false st)        (* EOF: break *)
  else
    match record_output has_stream l0 false st with
    | inl e => inl (DrainRaised e)
    | inr st1 =>
        match record_output has_stream l1 true st1 with
        | inl e => inl (DrainRaised e)
        | inr st2 =>
            match timeout with
            | Some tmo =>
                if time_ge (time_sub (clock c) start) tmo
                then match kill_swallowing_oserror kill_raises with
                     | None => inl (DrainExit true true st2)   (* break *)
                     | Some e => inl (DrainRaised e)
                     end
                else inr st2
            | None => inr st2
            end
        end
    end.

Fixpoint drain (timeout : option Time) (start : Time) (has_stream : bool)
  (kill_raises : bool) (cs : list poll_cycle) (st : drain_state) : drain_result :=
  match cs with
  | [] => DrainPending st
  | c :: cs' =>
      match drain_step timeout start has_stream kill_raises c st with
      | inl r => r
      | inr st' => drain timeout start has_stream kill_raises cs' st'
      end
  end.

Record ExecutionResult := mkExecutionResult {
  timeout_occurred : bool;
  outputs : list text * list text;
  retval : Z }.

(** [run_command(cmd, timeout, output_stream)]; [start] is the value of
    [time.time()] before the spawn.  Besides the returned triple, the model
    reports whether [process.kill()] was called and the writes to
    [output_stream]. *)
Definition run_command (spawn : spawn_outcome) (timeout : option Time)
  (has_stream : bool) (start : Time) : outcome (ExecutionResult * bool * list text) :=
  match spawn with
  | SpawnFailed reason => Raises (SpawnError reason)
  | Spawned ch =>
      match drain timeout start has_stream (kill_raises_oserror ch) (cycles ch)
                  (mkDrainState [] [] []) with
      | DrainExit tmo killed st =>
          Returns (mkExecutionResult tmo (proc_out st, proc_err st) (returncode ch),
                   killed, sink st)
      | DrainRaised e => Raises e
      | DrainPending _ => Blocked
      end
  end.

End RunCommand.

Arguments run_command {Time} time_sub time_ge decode spawn timeout has_stream start.
Arguments drain {Time} time_sub time_ge decode timeout start has_stream kill_raises cs st.
Arguments drain_step {Time} time_sub time_ge decode timeout start has_stream kill_raises c st.
Arguments mkPollCycle {Time} read_stdout read_stderr clock.
Arguments mkChild {Time} cycles kill_raises_oserror returncode.
Arguments Spawned {Time} c.
Arguments eof_cycle {Time} c.
Arguments clock {Time} p.
Arguments read_stdout {Time} p.
Arguments read_stderr {Time} p.
Arguments SpawnFailed {Time} reason.

(** ** Results of [solve]

    Modelled from the spec: the status codes and log levels of
    [up.solvers.results], which this file imports. *)

Inductive Status := SUCCESS | UNSOLVABLE | TIMEOUT | INTERNAL_ERROR | UNSUPPORTED.

Inductive LogLevel := INFO | ERROR.

Record LogMessage := mkLogMessage { level : LogLevel; message : text }.

Record PlanGenerationResult := mkPlanGenerationResult {
  status : Status;
  plan : option SequentialPlan;
  log_messages : list LogMessage;
  planner_name : text }.

(** ** [PDDLSolver.solve] *)

Section Solve.

Variable Time : Type.
Variable time_sub : Time -> Time -> Time.
Variable time_ge : Time -> Time -> bool.
Variable decode : text -> option text.

(** [self.__class__.__name__] and [self.name] of the concrete solver. *)
Variable cls_name solver_name : text.
Variable needs_requirements : bool.

(** [PDDLWriter(problem, needs_requirements)] writing the domain and the
    problem file, and the two methods a concrete solver overrides:
    [_get_cmd] and [_result_status]. *)
Variable write_pddl : Problem -> bool -> outcome unit.
Variable get_cmd : text -> text -> text -> list text.
Variable result_status : Problem -> option SequentialPlan -> outcome Status.

(** What the operating system does during one call: the temporary
    directory, [time.time()] at the start of [run_command], the process the
    command turns into, and the content of [plan.txt] afterwards when
    [os.path.isfile(plan_filename)] holds. *)
Record world := mkWorld {
  tempdir : text;
  start_time : Time;
  exec : list text -> spawn_outcome Time;
  plan_file : option text }.

Definition path_join (dir name : text) : text := dir ++ t "/" ++ name.

(** [cmd = self._get_cmd(domanin_filename, problem_filename, plan_filename)] *)
Definition solve_command (w : world) : list text :=
  let domanin_filename := path_join (tempdir w) (t "domain.pddl") in
  let problem_filename := path_join (tempdir w) (t "problem.pddl") in
  let plan_filename := path_join (tempdir w) (t "plan.txt") in
  get_cmd domanin_filename problem_filename plan_filename.

(** [if os.path.isfile(plan_filename): plan = self._plan_from_file(...)] *)
Definition read_plan (pb : Problem) (w : world) : outcome (option SequentialPlan) :=
  match plan_file w with
  | Some content => p <- plan_from_file cls_name pb content ;; Returns (Some p)
  | None => Returns None
  end.

(** The two entries appended to [logs] after the run. *)
Definition run_logs (res : ExecutionResult) : list LogMessage :=
  [mkLogMessage INFO (List.concat (fst (outputs res)));
   mkLogMessage ERROR (List.concat (snd (outputs res)))].

Definition solve (pb : Problem) (timeout : option Time) (has_stream : bool)
  (w : world) : outcome PlanGenerationResult :=
  _ <- write_pddl pb needs_requirements ;;
  r <- run_command time_sub time_ge decode (exec w (solve_command w)) timeout has_stream
         (start_time w) ;;
  let '(res, _, _) := r in
  let logs := run_logs res in
  plan <- read_plan pb w ;;
  if timeout_occurred res && negb (retval res =? 0)%Z
  then Returns (mkPlanGenerationResult TIMEOUT plan logs solver_name)
  else status <- result_status pb plan ;;
       Returns (mkPlanGenerationResult status plan logs solver_name).

End Solve.

Arguments solve {Time} time_sub time_ge decode cls_name solver_name needs_requirements
  write_pddl get_cmd result_status pb timeout has_stream w.
Arguments mkWorld {Time} tempdir start_time exec plan_file.
Arguments tempdir {Time} w.
Arguments start_time {Time} w.
Arguments exec {Time} w _.
Arguments plan_file {Time} w.
Arguments solve_command {Time} get_cmd w.
Arguments read_plan {Time} cls_name pb w.

(** ** Line heads *)

(** [s] is empty or its first character fails [p]. *)
Definition head_not (p : ascii -> bool) (s : text) : Prop :=
  match s with [] => True | c :: _ => p c = false end.


(** ** A concrete solver *)

(** A solver class [DemoPlanner] on a problem with one action [move] and
    the objects [a] and [b]; the writer succeeds, the command is
    [demo-planner domain problem plan], the classifier answers [SUCCESS]
    for a plan and [UNSOLVABLE] otherwise, decoding never fails, and time
    is an integer clock. *)
Definition demo_cls : text := t "DemoPlanner".
Definition demo_solver_name : text := t "demo".
Definition demo_problem : Problem :=
  mkProblem [mkAction (t "move")] [mkObject (t "a"); mkObject (t "b")].
Definition demo_write (pb : Problem) (nr : bool) : outcome unit := Returns tt.
Definition demo_cmd (domain problem plan : text) : list text :=
  [t "demo-planner"; domain; problem; plan].
Definition demo_status (pb : Problem) (pl : option SequentialPlan) : outcome Status :=
  match pl with Some _ => Returns SUCCESS | None => Returns UNSOLVABLE end.
Definition demo_decode (b : text) : option text := Some b.
Definition demo_cycle (out err : text) (clk : Z) : poll_cycle Z :=
  mkPollCycle (ReadLine out) (ReadLine err) clk.
Definition demo_world (spawn : spawn_outcome Z) (file : option text) : world Z :=
  mkWorld (t "/tmp/up") 0%Z (fun _ => spawn) file.
Definition demo_solve : Problem -> option Z -> bool -> world Z -> outcome PlanGenerationResult :=
  solve Z.sub Z.geb demo_decode demo_cls demo_solver_name true demo_write demo_cmd demo_status.

(** A file whose lines are [ls], each ended by ["\n"]. *)
Definition lines (ls : list string) : text :=
  List.concat (map (fun l => t l ++ [lf]) ls).

Definition move_instance (x y : string) : ActionInstance :=
  mkActionInstance (mkAction (t "move")) [ObjectExp (mkObject (t x)); ObjectExp (mkObject (t y))].

(** A run that is still printing when the deadline passes: killed, exit
    code -9, and a plan file with one action. *)
Definition demo_timed_out_world : world Z :=
  demo_world (Spawned (mkChild [demo_cycle (t "searching") [] 7%Z; demo_cycle [] [] 8%Z]
                                false (-9)%Z))
             (Some (lines ["(move a b)"%string])).

Definition demo_timed_out_result : PlanGenerationResult :=
  mkPlanGenerationResult TIMEOUT (Some (mkSequentialPlan [move_instance "a" "b"]))
    [mkLogMessage INFO (t "searching"); mkLogMessage ERROR []] demo_solver_name.

(** A run that ends at once and leaves a plan file with only a comment and
    a blank line. *)
Definition demo_quiet_world : world Z :=
  demo_world (Spawned (mkChild [demo_cycle [] [] 1%Z] false 0%Z))
             (Some (lines ["; no solution found"%string; "   "%string])).

(** [p] occurs in [s] at its start, [needle] anywhere in [hay]. *)
Fixpoint is_prefix (p s : text) : bool :=
  match p, s with
  | [], _ => true
  | a :: p', b :: s' => Ascii.eqb a b && is_prefix p' s'
  | _ :: _, [] => false
  end.

Fixpoint text_contains (needle hay : text) : bool :=
  is_prefix needle hay ||
  match hay with [] => false | _ :: hay' => text_contains needle hay' end.

(** ** Helpers for the further properties *)

(** The same text written with Windows (["\r\n"]) and with classic Mac
    (["\r"]) line ends. *)
Fixpoint crlf_encode (s : text) : text :=
  match s with
  | [] => []
  | c :: s' => if is_lf c then cr :: lf :: crlf_encode s' else c :: crlf_encode s'
  end.

Definition cr_encode (s : text) : text := map (fun c => if is_lf c then cr else c) s.

(** The value of a computation that returned, if it did. *)
Definition returned {A} (o : outcome A) : option A :=
  match o with Returns a => Some a | _ => None end.

(** Lines written to [output_stream], cycle by cycle: the stdout line,
    then the stderr line. *)
Fixpoint interleave (xs ys : list text) : list text :=
  match xs, ys with
  | x :: xs', y :: ys' => x :: y :: interleave xs' ys'
  | _, _ => []
  end.

(** A loop state and a loop outcome with the [output_stream] writes
    forgotten. *)
Definition strip_sink (st : drain_state) : drain_state :=
  mkDrainState (proc_out st) (proc_err st) [].

Definition strip_result (r : drain_result) : drain_result :=
  match r with
  | DrainExit tmo k st => DrainExit tmo k (strip_sink st)
  | DrainRaised e => DrainRaised e
  | DrainPending st => DrainPending (strip_sink st)
  end.

(** The entry [process_output] receives for a successful read:
    [lines[idx].decode().replace('\r\n', '\n')]. *)
Definition decoded_line (decode : text -> option text) (r : read_outcome) : text :=
  match decode (read_line r) with Some s => replace_crlf s | None => [] end.

(** [bytes.decode('ascii')]: fails on a byte of 128 or more. *)
Definition ascii_decode (b : text) : option text :=
  if forallb (fun c => Nat.ltb (nat_of_ascii c) 128) b then Some b else None.

(** * Text lemmas *)

Lemma span_spec (p : ascii -> bool) (s a b : text) :
  span p s = (a, b) ->
  s = a ++ b /\ forallb p a = true /\
  match b with [] => True | c :: _ => p c = false end.
Proof.
  revert a b. induction s as [|c s IH]; intros a b H; simpl in H.
  - injection H as <- <-. repeat split.
  - destruct (p c) eqn:Hc.
    + destruct (span p s) as [a' b'] eqn:Hs. injection H as <- <-.
      destruct (IH a' b' eq_refl) as (-> & Ha & Hb).
      repeat split; simpl; [rewrite Hc, Ha; reflexivity | exact Hb].
    + injection H as <- <-. repeat split. exact Hc.
Qed.

Lemma dot_star_end_app_r (a b : text) :
  dot_star_end (a ++ b) = true -> dot_star_end b = true.
Proof.
  induction a as [|c a IH]; simpl; [tauto|].
  destruct (is_lf c).
  - destruct a, b; simpl; congruence.
  - exact IH.
Qed.

(** Every line [readlines] yields has a ["
"] at most at its end. *)
Lemma split_lines_dot_star_end (s l : text) :
  In l (split_lines s) -> dot_star_end l = true.
Proof.
  revert l. induction s as [|c s IH]; intros l Hin; simpl in Hin; [contradiction|].
  destruct (is_lf c) eqn:Hc.
  - destruct Hin as [<-|Hin]; [simpl; rewrite Hc; reflexivity | exact (IH l Hin)].
  - destruct (split_lines s) as [|l0 ls] eqn:Hs.
    + destruct Hin as [<-|[]]. simpl. rewrite Hc. reflexivity.
    + destruct Hin as [<-|Hin].
      * simpl. rewrite Hc. apply IH. left. reflexivity.
      * apply IH. right. exact Hin.
Qed.

Lemma readlines_dot_star_end (content l : text) :
  In l (readlines content) -> dot_star_end l = true.
Proof. apply split_lines_dot_star_end. Qed.

(** On such a line the comment regex matches the spec's blank or comment lines. *)
Lemma match_blank_of_blank_or_comment (l : text) :
  dot_star_end l = true -> blank_or_comment l = true -> match_blank l = true.
Proof.
  unfold match_blank, blank_or_comment.
  destruct (span is_space l) as [a b] eqn:Hs. simpl.
  destruct (span_spec _ _ _ _ Hs) as (-> & _ & _).
  intros Hd Hb. apply dot_star_end_app_r in Hd.
  destruct b as [|c r]; [reflexivity|].
  rewrite Hb. simpl.
  apply Ascii.eqb_eq in Hb. subst c. exact Hd.
Qed.

Lemma blank_or_comment_of_match_blank (l : text) :
  match_blank l = true -> blank_or_comment l = true.
Proof.
  unfold match_blank, blank_or_comment.
  destruct (snd (span is_space l)) as [|c r]; [reflexivity|].
  intros H. apply andb_true_iff in H. apply H.
Qed.

Lemma plan_from_lines_all_blank (cls_name : text) (pb : Problem) (ls : list text) :
  Forall (fun l => match_blank l = true) ls -> plan_from_lines cls_name pb ls = Returns [].
Proof.
  induction 1 as [|l ls Hl _ IH]; simpl; [reflexivity|].
  rewrite Hl. exact IH.
Qed.

(** ** Universal newlines and line splitting distribute over a line boundary *)

Lemma is_cr_true (c : ascii) : is_cr c = true -> c = cr.
Proof. apply Ascii.eqb_eq. Qed.

Lemma is_lf_true (c : ascii) : is_lf c = true -> c = lf.
Proof. apply Ascii.eqb_eq. Qed.

Lemma translate_newlines_app (a b : text) :
  (forall a0, a <> a0 ++ [cr]) ->
  translate_newlines (a ++ b) = translate_newlines a ++ translate_newlines b.
Proof.
  remember (List.length a) as n eqn:Hn. revert a Hn.
  induction n as [n IH] using lt_wf_ind. intros a Hn Hnot.
  destruct a as [|c a']; [reflexivity|].
  simpl. destruct (is_cr c) eqn:Hc.
  - apply is_cr_true in Hc. subst c.
    destruct a' as [|c2 a''].
    + exfalso. exact (Hnot [] eq_refl).
    + simpl. destruct (is_lf c2).
      * cbn [app]. f_equal. refine (IH (List.length a'') ltac:(subst n; simpl; lia) a'' eq_refl _).
        intros a0 E. apply (Hnot (cr :: c2 :: a0)). rewrite E. reflexivity.
      * cbn [app]. f_equal. refine (IH (List.length (c2 :: a'')) ltac:(subst n; simpl; lia) (c2 :: a'') eq_refl _).
        intros a0 E. apply (Hnot (cr :: a0)). rewrite E. reflexivity.
  - cbn [app]. f_equal. refine (IH (List.length a') ltac:(subst n; simpl; lia) a' eq_refl _).
    intros a0 E. apply (Hnot (c :: a0)). rewrite E. reflexivity.
Qed.

Lemma translate_newlines_ends_lf (a : text) :
  exists x, translate_newlines (a ++ [lf]) = x ++ [lf].
Proof.
  remember (List.length a) as n eqn:Hn. revert a Hn.
  induction n as [n IH] using lt_wf_ind. intros a Hn.
  destruct a as [|c a']; [exists []; reflexivity|].
  simpl. destruct (is_cr c).
  - destruct a' as [|c2 a''].
    + exists []. reflexivity.
    + simpl. destruct (is_lf c2).
      * destruct (IH (List.length a'') ltac:(subst n; simpl; lia) a'' eq_refl) as [x Hx].
        exists (lf :: x). rewrite Hx. reflexivity.
      * destruct (IH (List.length (c2 :: a'')) ltac:(subst n; simpl; lia) (c2 :: a'') eq_refl)
          as [x Hx].
        exists (lf :: x). simpl in Hx. rewrite Hx. reflexivity.
  - destruct (IH (List.length a') ltac:(subst n; simpl; lia) a' eq_refl) as [x Hx].
    exists (c :: x). rewrite Hx. reflexivity.
Qed.

Lemma translate_newlines_no_cr (b : text) :
  forallb (fun c => negb (is_cr c)) b = true -> translate_newlines b = b.
Proof.
  induction b as [|c b IH]; simpl; [reflexivity|].
  intros H. apply andb_true_iff in H as [Hc Hb].
  destruct (is_cr c); [discriminate|]. rewrite IH; auto.
Qed.

Lemma split_lines_nonempty (s : text) : s <> [] -> split_lines s <> [].
Proof.
  destruct s as [|c s]; [congruence|]. intros _. simpl.
  destruct (is_lf c); [discriminate|]. destruct (split_lines s); discriminate.
Qed.

Lemma split_lines_app (a b : text) :
  (a = [] \/ exists a0, a = a0 ++ [lf]) ->
  split_lines (a ++ b) = split_lines a ++ split_lines b.
Proof.
  induction a as [|c a IH]; intros Ha; [reflexivity|].
  assert (Ha' : a = [] \/ exists a0, a = a0 ++ [lf]).
  { destruct Ha as [Ha|[a0 Ha]]; [discriminate|].
    destruct a0 as [|c0 a0]; [injection Ha as _ ->; left; reflexivity|].
    injection Ha as _ ->. right. exists a0. reflexivity. }
  simpl. destruct (is_lf c) eqn:Hc.
  - rewrite (IH Ha'). reflexivity.
  - assert (Hne : a <> []).
    { intros ->. destruct Ha as [Ha|[a0 Ha]]; [discriminate|].
      destruct a0 as [|c0 [|]]; simpl in Ha; injection Ha as E; try discriminate.
      subst c. discriminate. }
    rewrite (IH Ha').
    destruct (split_lines a) as [|l ls] eqn:Hs; [exact (False_rect _ (split_lines_nonempty a Hne Hs))|].
    reflexivity.
Qed.

Lemma split_lines_no_lf (b : text) :
  forallb (fun c => negb (is_lf c)) b = true ->
  split_lines (b ++ [lf]) = [b ++ [lf]] /\
  split_lines b = match b with [] => [] | _ => [b] end.
Proof.
  induction b as [|c b IH]; simpl; [split; reflexivity|].
  intros H. apply andb_true_iff in H as [Hc Hb].
  destruct (is_lf c); [discriminate|]. destruct (IH Hb) as [H1 H2].
  rewrite H1, H2. split; [reflexivity|]. destruct b; reflexivity.
Qed.

Lemma plan_from_lines_drop_blank (cls_name : text) (pb : Problem) (ls1 ls2 : list text) (b : text) :
  match_blank b = true ->
  plan_from_lines cls_name pb (ls1 ++ b :: ls2) = plan_from_lines cls_name pb (ls1 ++ ls2).
Proof.
  intros Hb. induction ls1 as [|line ls1 IH]; simpl; [rewrite Hb; reflexivity|].
  destruct (match_blank line); [exact IH|].
  destruct (match_action line) as [[g1 g2]|]; [rewrite IH|]; reflexivity.
Qed.

Lemma lf_neq_cr : lf <> cr.
Proof. intros H. vm_compute in H. discriminate H. Qed.

Lemma not_ends_cr_of_ends_lf (a : text) :
  (a = [] \/ exists a0, a = a0 ++ [lf]) -> forall a0, a <> a0 ++ [cr].
Proof.
  intros [->|[a1 ->]] a0 E.
  - destruct a0; discriminate.
  - apply app_inj_tail in E as [_ E]. exact (lf_neq_cr E).
Qed.

Lemma dot_star_end_no_lf (b : text) :
  forallb (fun c => negb (is_lf c)) b = true ->
  dot_star_end (b ++ [lf]) = true /\ dot_star_end b = true.
Proof.
  induction b as [|c b IH]; simpl; [auto|].
  intros H. apply andb_true_iff in H as [Hc Hb].
  destruct (is_lf c); [discriminate|]. exact (IH Hb).
Qed.

(** Reading a text cut after a ["\n"], around a line [b] free of line breaks. *)
Lemma readlines_around_line (t1 t2 b : text) :
  (t1 = [] \/ exists a0, t1 = a0 ++ [lf]) ->
  forallb (fun c => negb (is_lf c) && negb (is_cr c)) b = true ->
  readlines (t1 ++ (b ++ [lf]) ++ t2) = readlines t1 ++ (b ++ [lf]) :: readlines t2 /\
  readlines (t1 ++ t2) = readlines t1 ++ readlines t2 /\
  readlines (t1 ++ b) = readlines t1 ++ match b with [] => [] | _ => [b] end.
Proof.
  intros Ht1 Hb.
  assert (Hlf : forallb (fun c => negb (is_lf c)) b = true).
  { apply forallb_forall. intros c Hc. apply (proj1 (forallb_forall _ b) Hb) in Hc.
    apply andb_true_iff in Hc. apply Hc. }
  assert (Hcr : forallb (fun c => negb (is_cr c)) b = true).
  { apply forallb_forall. intros c Hc. apply (proj1 (forallb_forall _ b) Hb) in Hc.
    apply andb_true_iff in Hc. apply Hc. }
  assert (Hcr' : forallb (fun c => negb (is_cr c)) (b ++ [lf]) = true).
  { rewrite forallb_app, Hcr. reflexivity. }
  assert (HT1 : translate_newlines t1 = [] \/ exists a0, translate_newlines t1 = a0 ++ [lf]).
  { destruct Ht1 as [->|[a0 ->]]; [left; reflexivity|right].
    apply translate_newlines_ends_lf. }
  pose proof (not_ends_cr_of_ends_lf t1 Ht1) as Hn1.
  pose proof (not_ends_cr_of_ends_lf (b ++ [lf]) (or_intror (ex_intro _ b eq_refl))) as Hnb.
  destruct (split_lines_no_lf b Hlf) as [Hs1 Hs2].
  unfold readlines. repeat split.
  - rewrite (translate_newlines_app t1 _ Hn1), (translate_newlines_app _ t2 Hnb).
    rewrite (translate_newlines_no_cr _ Hcr').
    rewrite (split_lines_app _ _ HT1), (split_lines_app (b ++ [lf]) _ (or_intror (ex_intro _ b eq_refl))).
    rewrite Hs1. reflexivity.
  - rewrite (translate_newlines_app t1 _ Hn1). apply split_lines_app. exact HT1.
  - rewrite (translate_newlines_app t1 _ Hn1), (translate_newlines_no_cr _ Hcr).
    rewrite (split_lines_app _ _ HT1), Hs2. reflexivity.
Qed.

(** ** Tokens of an action line *)

Lemma is_tok_not_space (c : ascii) : is_tok c = true -> is_space c = false.
Proof. destruct c as [[] [] [] [] [] [] [] []]; vm_compute; congruence. Qed.

Lemma is_tok_not_spec_sep (c : ascii) : is_tok c = true -> spec_sep c = false.
Proof. destruct c as [[] [] [] [] [] [] [] []]; vm_compute; congruence. Qed.

Lemma is_space_spec_sep (c : ascii) : is_space c = true -> spec_sep c = true.
Proof. unfold spec_sep. intros ->. reflexivity. Qed.

Lemma split_on_aux_sep_start (sep : ascii -> bool) (s : text) :
  starts_sep sep s = true -> split_on_aux sep s = ([], split_on sep s).
Proof.
  destruct s as [|c s]; simpl; [reflexivity|]. intros Hc.
  unfold split_on. simpl. destruct (split_on_aux sep s) as [w ws]. rewrite Hc. reflexivity.
Qed.

Lemma split_on_sep_prefix (sep : ascii -> bool) (x s : text) :
  forallb sep x = true -> split_on sep (x ++ s) = split_on sep s.
Proof.
  induction x as [|c x IH]; simpl; [reflexivity|].
  intros H. apply andb_true_iff in H as [Hc Hx]. rewrite <- (IH Hx).
  unfold split_on. simpl. destruct (split_on_aux sep (x ++ s)) as [w ws].
  rewrite Hc. reflexivity.
Qed.

Lemma split_on_aux_word_prefix (sep : ascii -> bool) (x s : text) :
  forallb (fun c => negb (sep c)) x = true ->
  split_on_aux sep (x ++ s) = (x ++ fst (split_on_aux sep s), snd (split_on_aux sep s)).
Proof.
  induction x as [|c x IH]; simpl.
  - intros _. destruct (split_on_aux sep s); reflexivity.
  - intros H. apply andb_true_iff in H as [Hc Hx]. rewrite (IH Hx).
    destruct (sep c); [discriminate|]. reflexivity.
Qed.

Lemma split_on_word (sep : ascii -> bool) (x s : text) :
  x <> [] -> forallb (fun c => negb (sep c)) x = true -> starts_sep sep s = true ->
  split_on sep (x ++ s) = x :: split_on sep s.
Proof.
  intros Hne Hx Hs. unfold split_on at 1.
  rewrite (split_on_aux_word_prefix sep x s Hx), (split_on_aux_sep_start sep s Hs).
  simpl. rewrite app_nil_r. destruct x; [congruence|reflexivity].
Qed.

Lemma forallb_tok_negb (sep : ascii -> bool) (x : text) :
  (forall c, is_tok c = true -> sep c = false) ->
  forallb is_tok x = true -> forallb (fun c => negb (sep c)) x = true.
Proof.
  intros Hsep Hx. apply forallb_forall. intros c Hc.
  rewrite (Hsep c (proj1 (forallb_forall _ x) Hx c Hc)). reflexivity.
Qed.

Lemma forallb_space_spec_sep (x : text) :
  forallb is_space x = true -> forallb spec_sep x = true.
Proof.
  intros Hx. apply forallb_forall. intros c Hc.
  exact (is_space_spec_sep c (proj1 (forallb_forall _ x) Hx c Hc)).
Qed.

(** Group 2 is a run of whitespace-separated tokens: its [split()] are the
    tokens the spec's tokenisation sees there. *)
Lemma params_group_tokens (f : nat) (s g rest : text) :
  params_group f s = (g, rest) ->
  s = g ++ rest /\ starts_sep is_space g = true /\
  forall R, starts_sep spec_sep R = true ->
    split_on spec_sep (g ++ R) = py_split g ++ split_on spec_sep R.
Proof.
  revert s g rest. induction f as [|f IH]; intros s g rest H; simpl in H.
  - injection H as <- <-. repeat split.
  - destruct (span is_space s) as [ws r] eqn:E1.
    destruct (span is_tok r) as [tok r'] eqn:E2.
    destruct (span_spec _ _ _ _ E1) as (Hs & Hws & _).
    destruct (span_spec _ _ _ _ E2) as (Hr & Htok & _).
    destruct ws as [|w ws'], tok as [|k tok'];
      try (injection H as <- <-; repeat split; fail).
    destruct (params_group f r') as [g' rest'] eqn:E3.
    injection H as <- <-.
    destruct (IH r' g' rest' E3) as (Hr' & Hg' & Hsplit).
    assert (Htok_sp : forallb (fun c => negb (is_space c)) (k :: tok') = true)
      by (apply forallb_tok_negb; [exact is_tok_not_space | exact Htok]).
    assert (Htok_ss : forallb (fun c => negb (spec_sep c)) (k :: tok') = true)
      by (apply forallb_tok_negb; [exact is_tok_not_spec_sep | exact Htok]).
    split; [subst s r r'; simpl; repeat rewrite <- app_assoc; simpl;
            repeat rewrite <- app_assoc; reflexivity|].
    split; [simpl in Hws |- *; apply andb_true_iff in Hws; apply Hws|].
    intros R HR.
    change (split_on spec_sep (((w :: ws') ++ (k :: tok') ++ g') ++ R) =
            py_split ((w :: ws') ++ (k :: tok') ++ g') ++ split_on spec_sep R).
    rewrite <- !app_assoc.
    rewrite (split_on_sep_prefix spec_sep (w :: ws')) by (apply forallb_space_spec_sep; exact Hws).
    rewrite (split_on_word spec_sep (k :: tok')); [| discriminate | exact Htok_ss |].
    2:{ destruct g' as [|c g'']; [exact HR|].
        simpl in Hg' |- *. apply is_space_spec_sep. exact Hg'. }
    rewrite (Hsplit R HR). unfold py_split.
    rewrite (split_on_sep_prefix is_space (w :: ws')) by exact Hws.
    rewrite (split_on_word is_space (k :: tok')); [reflexivity | discriminate | exact Htok_sp | exact Hg'].
Qed.

(** The regex groups of a matched action line are the spec's tokens of
    that line: the action name, then the parameters in order. *)
Lemma match_action_tokens (line g1 g2 : text) :
  match_action line = Some (g1, g2) -> spec_line_tokens line = g1 :: py_split g2.
Proof.
  unfold match_action, spec_line_tokens.
  destruct (span is_space line) as [ws1 r1] eqn:E1. cbn [snd].
  destruct (span_spec _ _ _ _ E1) as (-> & Hws1 & _).
  destruct r1 as [|c r2]; [discriminate|].
  destruct (Ascii.eqb c lparen) eqn:Ec; [|discriminate].
  destruct (span is_space r2) as [ws2 r3] eqn:E2. cbn [snd].
  destruct (span_spec _ _ _ _ E2) as (-> & Hws2 & _).
  destruct (span is_tok r3) as [name r4] eqn:E3.
  destruct (span_spec _ _ _ _ E3) as (-> & Hname & _).
  destruct name as [|n name']; [discriminate|].
  destruct (params_group (List.length r4) r4) as [g r5] eqn:E4.
  destruct (params_group_tokens _ _ _ _ E4) as (-> & Hg & Hsplit).
  destruct (span is_space r5) as [ws3 r6] eqn:E5. cbn [snd].
  destruct (span_spec _ _ _ _ E5) as (-> & Hws3 & _).
  destruct r6 as [|c' r7]; [discriminate|].
  destruct (Ascii.eqb c' rparen && forallb is_space r7) eqn:Ec'; [|discriminate].
  intros H. injection H as <- <-.
  apply andb_true_iff in Ec' as [Ec' Hr7].
  apply Ascii.eqb_eq in Ec, Ec'. subst c c'.
  assert (Hpre : forallb spec_sep (ws1 ++ lparen :: ws2) = true).
  { rewrite forallb_app. simpl.
    rewrite !forallb_space_spec_sep by assumption. reflexivity. }
  assert (HR : forallb spec_sep (ws3 ++ rparen :: r7) = true).
  { rewrite forallb_app. simpl.
    rewrite !forallb_space_spec_sep by assumption. reflexivity. }
  replace ((ws1 ++ lparen :: ws2 ++ (n :: name') ++ g ++ ws3 ++ rparen :: r7))
    with ((ws1 ++ lparen :: ws2) ++ (n :: name') ++ (g ++ ws3 ++ rparen :: r7))
    by (rewrite <- app_assoc; reflexivity).
  rewrite split_on_sep_prefix by exact Hpre.
  rewrite split_on_word; [| discriminate | apply forallb_tok_negb; [exact is_tok_not_spec_sep | exact Hname] |].
  2:{ destruct g as [|x g']; simpl in Hg |- *;
      [ destruct ws3 as [|x ws3']; [reflexivity|]; simpl in Hws3 |- *;
        apply is_space_spec_sep; apply andb_true_iff in Hws3; apply Hws3
      | apply is_space_spec_sep; exact Hg ]. }
  rewrite (Hsplit (ws3 ++ rparen :: r7)).
  2:{ destruct ws3 as [|x ws3']; [reflexivity|]. simpl in Hws3 |- *.
      apply is_space_spec_sep. apply andb_true_iff in Hws3. apply Hws3. }
  rewrite <- (app_nil_r (ws3 ++ rparen :: r7)), split_on_sep_prefix by exact HR.
  rewrite app_nil_r. reflexivity.
Qed.

Lemma text_eqb_eq (a b : text) : text_eqb a b = true -> a = b.
Proof.
  revert b. induction a as [|x a IH]; intros [|y b]; simpl; try discriminate; [reflexivity|].
  intros H. apply andb_true_iff in H as [Hx Hab].
  apply Ascii.eqb_eq in Hx. subst y. f_equal. exact (IH b Hab).
Qed.

Lemma problem_action_name (pb : Problem) (line name : text) (a : Action) :
  problem_action pb line name = Returns a -> action_name a = name.
Proof.
  unfold problem_action.
  destruct (find _ _) as [a'|] eqn:E; intros H; [|discriminate].
  injection H as <-. apply find_some in E as [_ E]. exact (text_eqb_eq _ _ E).
Qed.

Lemma resolve_parameters_names (pb : Problem) (line : text) (ps : list text) (fs : list FNode) :
  resolve_parameters pb line ps = Returns fs -> map fnode_name fs = ps.
Proof.
  revert fs. induction ps as [|p ps IH]; intros fs H; simpl in H.
  - injection H as <-. reflexivity.
  - unfold problem_object in H.
    destruct (find _ _) as [o|] eqn:E; [|discriminate]. simpl in H.
    destruct (resolve_parameters pb line ps) as [fs'| |]; try discriminate.
    injection H as <-. simpl. apply find_some in E as [_ E].
    rewrite (text_eqb_eq _ _ E), (IH fs' eq_refl). reflexivity.
Qed.

Lemma plan_from_lines_structure (cls_name : text) (pb : Problem) (ls : list text)
  (acts : list ActionInstance) :
  (forall l, In l ls -> dot_star_end l = true) ->
  plan_from_lines cls_name pb ls = Returns acts ->
  map serialize_action acts = map spec_line_tokens (filter (fun l => negb (blank_or_comment l)) ls).
Proof.
  revert acts. induction ls as [|line ls IH]; intros acts Hd H; simpl in H.
  - injection H as <-. reflexivity.
  - assert (Hd' : forall l, In l ls -> dot_star_end l = true) by (intros; apply Hd; right; assumption).
    simpl. destruct (match_blank line) eqn:Hm.
    + rewrite (blank_or_comment_of_match_blank line Hm). simpl. exact (IH acts Hd' H).
    + destruct (blank_or_comment line) eqn:Hb.
      { rewrite (match_blank_of_blank_or_comment line (Hd line (or_introl eq_refl)) Hb) in Hm.
        discriminate. }
      simpl.
      destruct (match_action line) as [[g1 g2]|] eqn:Ha; [|discriminate].
      destruct (problem_action pb line g1) as [a| |] eqn:Ea; try discriminate. simpl in H.
      destruct (resolve_parameters pb line (py_split g2)) as [fs| |] eqn:Ef; try discriminate.
      simpl in H.
      destruct (plan_from_lines cls_name pb ls) as [acts'| |] eqn:Er; try discriminate.
      injection H as <-. simpl.
      rewrite (IH acts' Hd' eq_refl), (match_action_tokens line g1 g2 Ha).
      unfold serialize_action. simpl.
      rewrite (problem_action_name pb line g1 a Ea), (resolve_parameters_names pb line _ fs Ef).
      reflexivity.
Qed.

(** ** Action lines in either form *)

Lemma span_app_stop (p : ascii -> bool) (a b : text) :
  forallb p a = true -> head_not p b -> span p (a ++ b) = (a, b).
Proof.
  induction a as [|c a IH]; simpl; intros Ha Hb.
  - destruct b as [|c b]; simpl in *; [reflexivity|]. rewrite Hb. reflexivity.
  - apply andb_true_iff in Ha as [Hc Ha]. rewrite Hc, (IH Ha Hb). reflexivity.
Qed.

Lemma is_space_not_tok (c : ascii) : is_space c = true -> is_tok c = false.
Proof. destruct c as [[] [] [] [] [] [] [] []]; vm_compute; congruence. Qed.








Lemma plan_from_lines_malformed (cls_name : text) (pb : Problem) (ls1 ls2 : list text)
  (bad : text) :
  malformed bad = true ->
  plan_from_lines cls_name pb (ls1 ++ bad :: ls2) =
  bind (plan_from_lines cls_name pb ls1)
       (fun _ => Raises (UPException (parse_error_message cls_name))).
Proof.
  unfold malformed. intros Hbad.
  apply andb_true_iff in Hbad as [Hb Ha]. apply negb_true_iff in Hb.
  induction ls1 as [|line ls1 IH]; simpl.
  - rewrite Hb. destruct (match_action bad); [discriminate|reflexivity].
  - destruct (match_blank line); [exact IH|].
    destruct (match_action line) as [[g1 g2]|]; [|reflexivity].
    destruct (problem_action pb line g1); simpl; try reflexivity.
    destruct (resolve_parameters pb line (py_split g2)); simpl; try reflexivity.
    rewrite IH. destruct (plan_from_lines cls_name pb ls1); reflexivity.
Qed.

Lemma resolve_parameters_not_blocked (pb : Problem) (line : text) (ps : list text) :
  resolve_parameters pb line ps <> Blocked.
Proof.
  induction ps as [|p ps IH]; simpl; [discriminate|].
  unfold problem_object. destruct (find _ _); simpl; [|discriminate].
  destruct (resolve_parameters pb line ps); simpl; congruence.
Qed.

Lemma plan_from_lines_not_blocked (cls_name : text) (pb : Problem) (ls : list text) :
  plan_from_lines cls_name pb ls <> Blocked.
Proof.
  induction ls as [|line ls IH]; simpl; [discriminate|].
  destruct (match_blank line); [exact IH|].
  destruct (match_action line) as [[g1 g2]|]; [|discriminate].
  unfold problem_action. destruct (find _ _); simpl; [|discriminate].
  pose proof (resolve_parameters_not_blocked pb line (py_split g2)) as Hr.
  destruct (resolve_parameters pb line (py_split g2)); simpl; try congruence.
  destruct (plan_from_lines cls_name pb ls); simpl; congruence.
Qed.

(** * Properties of [run_command] *)

Lemma drain_app {Time : Type} (time_sub : Time -> Time -> Time) (time_ge : Time -> Time -> bool)
  (decode : text -> option text) (timeout : option Time) (start : Time) (hs kr : bool)
  (pre cs : list (poll_cycle Time)) (st : drain_state) :
  drain time_sub time_ge decode timeout start hs kr (pre ++ cs) st =
  match drain time_sub time_ge decode timeout start hs kr pre st with
  | DrainPending st' => drain time_sub time_ge decode timeout start hs kr cs st'
  | r => r
  end.
Proof.
  revert st. induction pre as [|c pre IH]; intros st; simpl; [reflexivity|].
  unfold drain_step.
  destruct (eof_cycle c); [reflexivity|].
  destruct (record_output _ _ _ _ _) as [e|st1]; [reflexivity|].
  destruct (record_output _ _ _ _ _) as [e|st2]; [reflexivity|].
  destruct timeout as [tmo|]; [|apply IH].
  destruct (time_ge _ _); [|apply IH].
  destruct (kill_swallowing_oserror kr); reflexivity.
Qed.

Section RunCommandFacts.

Context {Time : Type} (time_sub : Time -> Time -> Time) (time_ge : Time -> Time -> bool)
  (decode : text -> option text).

Local Abbreviation RUN := (run_command time_sub time_ge decode).
Local Abbreviation DRAIN := (drain time_sub time_ge decode).

(** Whatever [process.kill()] does, nothing escapes the [try]. *)
Lemma kill_swallowing_oserror_none (kr : bool) : kill_swallowing_oserror kr = None.
Proof. destruct kr; reflexivity. Qed.

(** C5, as the code has it: the deadline is checked only after a polling
    cycle which did not end on both streams.  After the earlier cycles
    [pre] left the captured output [st]:
    - if the next cycle [c] is not at end of file and
      [time.time() - start >= timeout] holds at its check, the runner calls
      [process.kill()], swallows its [OSError] (whether or not it is
      raised), reads nothing more (the remaining observations [post] are
      never used), and returns [timeout_occoured = True] with all the output
      captured so far: that of [st] followed by this cycle's lines;
    - if [c] is not at end of file and the deadline has not been reached,
      the lines are recorded and reading goes on;
    - if [c] is at end of file on both streams, the loop breaks before any
      deadline check, whatever the time: no kill, [timeout_occoured =
      False], and the output of [st]. *)
Theorem timeout_check_kills_and_returns (pre post : list (poll_cycle Time))
  (c : poll_cycle Time) (kr : bool) (rc : Z) (tmo start : Time) (hs : bool)
  (st : drain_state) :
  DRAIN (Some tmo) start hs kr pre (mkDrainState [] [] []) = DrainPending st ->
  (forall s0 s1 : text,
     eof_cycle c = false ->
     decode (read_line (read_stdout c)) = Some s0 ->
     decode (read_line (read_stderr c)) = Some s1 ->
     time_ge (time_sub (clock c) start) tmo = true ->
     RUN (Spawned (mkChild (pre ++ c :: post) kr rc)) (Some tmo) hs start =
     Returns (mkExecutionResult true
                (proc_out st ++ [replace_crlf s0], proc_err st ++ [replace_crlf s1]) rc,
              true,
              if hs then sink st ++ [replace_crlf s0; replace_crlf s1] else sink st)) /\
  (forall s0 s1 : text,
     eof_cycle c = false ->
     decode (read_line (read_stdout c)) = Some s0 ->
     decode (read_line (read_stderr c)) = Some s1 ->
     time_ge (time_sub (clock c) start) tmo = false ->
     DRAIN (Some tmo) start hs kr (pre ++ [c]) (mkDrainState [] [] []) =
     DrainPending (mkDrainState (proc_out st ++ [replace_crlf s0]) (proc_err st ++ [replace_crlf s1])
                     (if hs then sink st ++ [replace_crlf s0; replace_crlf s1] else sink st))) /\
  (eof_cycle c = true ->
     RUN (Spawned (mkChild (pre ++ c :: post) kr rc)) (Some tmo) hs start =
     Returns (mkExecutionResult false (proc_out st, proc_err st) rc, false, sink st)).
Proof.
  intros Hpre. split; [|split].
  - intros s0 s1 Heof Hd0 Hd1 Htime.
    unfold run_command. cbn [cycles kill_raises_oserror returncode].
    rewrite drain_app, Hpre. simpl.
    unfold drain_step. rewrite Heof.
    unfold record_output. rewrite Hd0, Hd1. simpl.
    rewrite Htime, kill_swallowing_oserror_none.
    destruct hs; simpl; [rewrite <- app_assoc|]; reflexivity.
  - intros s0 s1 Heof Hd0 Hd1 Htime.
    rewrite drain_app, Hpre. simpl.
    unfold drain_step. rewrite Heof.
    unfold record_output. rewrite Hd0, Hd1. simpl.
    rewrite Htime.
    destruct hs; simpl; [rewrite <- app_assoc|]; reflexivity.
  - intros Heof.
    unfold run_command. cbn [cycles kill_raises_oserror returncode].
    rewrite drain_app, Hpre. simpl.
    unfold drain_step. rewrite Heof. reflexivity.
Qed.

End RunCommandFacts.

(** * Properties of [solve] *)

Section SolveFacts.

Context {Time : Type} (time_sub : Time -> Time -> Time) (time_ge : Time -> Time -> bool)
  (decode : text -> option text) (cls_name solver_name : text) (needs_requirements : bool)
  (write_pddl : Problem -> bool -> outcome unit)
  (get_cmd : text -> text -> text -> list text)
  (result_status : Problem -> option SequentialPlan -> outcome Status).

Local Abbreviation SOLVE := (solve time_sub time_ge decode cls_name solver_name
  needs_requirements write_pddl get_cmd result_status).
Local Abbreviation RUN := (run_command time_sub time_ge decode).

Lemma timeout_rule_dec (res : ExecutionResult) :
  {timeout_occurred res = true /\ retval res <> 0%Z} +
  {~ (timeout_occurred res = true /\ retval res <> 0%Z)}.
Proof.
  destruct (timeout_occurred res); [|right; intros [H _]; discriminate].
  destruct (Z.eq_dec (retval res) 0); [right; tauto | left; tauto].
Defined.

(** Every value [solve] returns comes from a run that returned. *)
Lemma solve_returns_inv (pb : Problem) (timeout : option Time) (hs : bool) (w : world Time)
  (r : PlanGenerationResult) :
  SOLVE pb timeout hs w = Returns r ->
  exists res k sk p,
    write_pddl pb needs_requirements = Returns tt /\
    RUN (exec w (solve_command get_cmd w)) timeout hs (start_time w) = Returns (res, k, sk) /\
    read_plan cls_name pb w = Returns p /\
    plan r = p /\ log_messages r = run_logs res /\ planner_name r = solver_name /\
    (if timeout_occurred res && negb (retval res =? 0)%Z
     then status r = TIMEOUT
     else result_status pb p = Returns (status r)).
Proof.
  unfold solve, bind.
  destruct (write_pddl pb needs_requirements) as [[]| |]; try discriminate.
  destruct (RUN _ _ _ _) as [[[res k] sk]| |]; try discriminate.
  destruct (read_plan cls_name pb w) as [p| |]; try discriminate.
  intros H. exists res, k, sk, p.
  destruct (timeout_occurred res && negb (retval res =? 0)%Z).
  - injection H as <-. repeat split; reflexivity.
  - destruct (result_status pb p) as [st| |]; try discriminate.
    injection H as <-. repeat split; reflexivity.
Qed.

(** C1: the status of every returned result is [TIMEOUT] when the runner
    reported a timeout and the recorded exit code is not 0, whether or not
    a plan was parsed, and otherwise the value [_result_status] returned for
    the problem and the (possibly absent) plan.  Hence, for a classifier
    that never answers [TIMEOUT] itself, the status is [TIMEOUT] exactly in
    the first case. *)
Theorem solve_status_timeout_rule (pb : Problem) (timeout : option Time) (hs : bool)
  (w : world Time) (r : PlanGenerationResult) :
  SOLVE pb timeout hs w = Returns r ->
  exists res k sk,
    RUN (exec w (solve_command get_cmd w)) timeout hs (start_time w) = Returns (res, k, sk) /\
    (timeout_occurred res = true /\ retval res <> 0%Z -> status r = TIMEOUT) /\
    (~ (timeout_occurred res = true /\ retval res <> 0%Z) ->
       result_status pb (plan r) = Returns (status r)) /\
    ((forall p pl st, result_status p pl = Returns st -> st <> TIMEOUT) ->
       (status r = TIMEOUT <-> timeout_occurred res = true /\ retval res <> 0%Z)).
Proof.
  intros H.
  destruct (solve_returns_inv pb timeout hs w r H)
    as (res & k & sk & p & _ & Hrun & _ & Hp & _ & _ & Hst).
  exists res, k, sk. split; [exact Hrun|]. subst p.
  assert (Htmo : timeout_occurred res = true /\ retval res <> 0%Z -> status r = TIMEOUT).
  { intros [E1 E2]. apply Z.eqb_neq in E2. rewrite E1, E2 in Hst. exact Hst. }
  assert (Hcls : ~ (timeout_occurred res = true /\ retval res <> 0%Z) ->
                 result_status pb (plan r) = Returns (status r)).
  { intros Hn. destruct (timeout_occurred res) eqn:Et, (retval res =? 0)%Z eqn:Er;
      simpl in Hst; try exact Hst.
    exfalso. apply Hn. split; [reflexivity | apply Z.eqb_neq; exact Er]. }
  split; [exact Htmo|]. split; [exact Hcls|].
  intros Hrange. split; [|exact Htmo].
  intros Hs. destruct (timeout_rule_dec res) as [Hy|Hn]; [exact Hy|].
  exfalso. exact (Hrange _ _ _ (Hcls Hn) Hs).
Qed.

(** C8: every result [solve] returns, whatever its status, carries exactly
    two log messages, in this order: the whole captured stdout at level
    [INFO] and the whole captured stderr at level [ERROR], empty texts
    included. *)
Theorem solve_logs_stdout_stderr (pb : Problem) (timeout : option Time) (hs : bool)
  (w : world Time) (r : PlanGenerationResult) :
  SOLVE pb timeout hs w = Returns r ->
  exists res k sk,
    RUN (exec w (solve_command get_cmd w)) timeout hs (start_time w) = Returns (res, k, sk) /\
    log_messages r = [mkLogMessage INFO (List.concat (fst (outputs res)));
                      mkLogMessage ERROR (List.concat (snd (outputs res)))].
Proof.
  intros H.
  destruct (solve_returns_inv pb timeout hs w r H)
    as (res & k & sk & p & _ & Hrun & _ & _ & Hlogs & _ & _).
  exists res, k, sk. split; [exact Hrun | exact Hlogs].
Qed.

(** C9: when the command cannot be spawned, [solve] raises the spawn error
    itself: no result, timed out or otherwise, is returned. *)
Theorem solve_spawn_failure_propagates (pb : Problem) (timeout : option Time) (hs : bool)
  (w : world Time) (reason : text) :
  write_pddl pb needs_requirements = Returns tt ->
  exec w (solve_command get_cmd w) = SpawnFailed reason ->
  SOLVE pb timeout hs w = Raises (SpawnError reason).
Proof.
  intros Hw Hspawn. unfold solve. rewrite Hw. simpl.
  rewrite Hspawn. reflexivity.
Qed.

(** C10: a plan file all of whose lines are blank or comments (an empty
    file included) parses to the empty [SequentialPlan]; [solve] then hands
    [Some] of that empty plan, not [None], to [_result_status], exactly as
    for a plan file listing zero actions. *)
Theorem empty_plan_file_gives_empty_plan (pb : Problem) (timeout : option Time) (hs : bool)
  (w : world Time) (content : text) :
  (forall l, In l (readlines content) -> blank_or_comment l = true) ->
  plan_from_file cls_name pb content = Returns (mkSequentialPlan []) /\
  forall res k sk,
    write_pddl pb needs_requirements = Returns tt ->
    RUN (exec w (solve_command get_cmd w)) timeout hs (start_time w) = Returns (res, k, sk) ->
    plan_file w = Some content ->
    SOLVE pb timeout hs w =
      if timeout_occurred res && negb (retval res =? 0)%Z
      then Returns (mkPlanGenerationResult TIMEOUT (Some (mkSequentialPlan []))
                      (run_logs res) solver_name)
      else st <- result_status pb (Some (mkSequentialPlan [])) ;;
           Returns (mkPlanGenerationResult st (Some (mkSequentialPlan []))
                      (run_logs res) solver_name).
Proof.
  intros Hblank.
  assert (Hp : plan_from_file cls_name pb content = Returns (mkSequentialPlan [])).
  { unfold plan_from_file. rewrite plan_from_lines_all_blank; [reflexivity|].
    apply Forall_forall. intros l Hin.
    apply match_blank_of_blank_or_comment;
      [exact (readlines_dot_star_end content l Hin) | exact (Hblank l Hin)]. }
  split; [exact Hp|].
  intros res k sk Hw Hrun Hfile. unfold solve. rewrite Hw. simpl.
  rewrite Hrun. simpl. unfold read_plan. rewrite Hfile, Hp. reflexivity.
Qed.

(** C3: a plan text with a line matching neither regex
    never parses to a plan, not even a partial one.  When the lines before
    the first such line parse, the error is the malformed-line
    [UPException]; otherwise an earlier line's unresolved name is reported
    first.  Inside [solve], a plan file that fails to parse makes [solve]
    raise that very error instead of returning a result. *)
Theorem malformed_line_aborts_parse (pb : Problem) (content : text)
  (ls1 ls2 : list text) (bad : text) :
  readlines content = ls1 ++ bad :: ls2 ->
  malformed bad = true ->
  (exists e, plan_from_file cls_name pb content = Raises e) /\
  ((exists acts, plan_from_lines cls_name pb ls1 = Returns acts) ->
     plan_from_file cls_name pb content = Raises (UPException (parse_error_message cls_name))) /\
  (forall (timeout : option Time) (hs : bool) (w : world Time) res k sk,
     write_pddl pb needs_requirements = Returns tt ->
     RUN (exec w (solve_command get_cmd w)) timeout hs (start_time w) = Returns (res, k, sk) ->
     plan_file w = Some content ->
     exists e, plan_from_file cls_name pb content = Raises e /\ SOLVE pb timeout hs w = Raises e).
Proof.
  intros Hrl Hbad.
  assert (Hraise : exists e, plan_from_file cls_name pb content = Raises e).
  { unfold plan_from_file. rewrite Hrl, plan_from_lines_malformed by exact Hbad.
    pose proof (plan_from_lines_not_blocked cls_name pb ls1) as Hnb.
    destruct (plan_from_lines cls_name pb ls1) as [acts|e|]; simpl;
      [eexists; reflexivity | eexists; reflexivity | congruence]. }
  split; [exact Hraise|]. split.
  - intros [acts Hacts]. unfold plan_from_file.
    rewrite Hrl, plan_from_lines_malformed, Hacts by exact Hbad. reflexivity.
  - intros timeout hs w res k sk Hw Hrun Hfile.
    destruct Hraise as [e He]. exists e. split; [exact He|].
    unfold solve. rewrite Hw. simpl. rewrite Hrun. simpl.
    unfold read_plan. rewrite Hfile, He. reflexivity.
Qed.

End SolveFacts.

(** * Properties of [_plan_from_file] *)

Section PlanFromFile.

Variable cls_name : text.
Variable pb : Problem.

(** C6: when the plan text parses, the plan lists one action instance per
    action line, in file order, and each carries the action named on its
    line and the parameters in token order: re-serialising the plan gives
    back, line by line, the name and parameter tokens of the text. *)
Theorem plan_roundtrip_structure (content : text) (p : SequentialPlan) :
  plan_from_file cls_name pb content = Returns p ->
  serialize_plan p = spec_structure content.
Proof.
  unfold plan_from_file, serialize_plan, spec_structure.
  destruct (plan_from_lines cls_name pb (readlines content)) as [acts| |] eqn:E;
    simpl; try discriminate.
  intros H. injection H as <-. simpl.
  apply (plan_from_lines_structure cls_name pb); [|exact E].
  apply readlines_dot_star_end.
Qed.


(** C4, as the code has it: the error raised for a malformed line is
    [UPException("Error parsing plan generated by " + cls_name)], the same
    whatever the offending line and whatever follows it: the line's content
    is not part of it. *)
Theorem parse_error_message_omits_line (ls1 ls2 ls2' : list text) (bad1 bad2 : text)
  (acts : list ActionInstance) :
  plan_from_lines cls_name pb ls1 = Returns acts ->
  malformed bad1 = true -> malformed bad2 = true ->
  plan_from_lines cls_name pb (ls1 ++ bad1 :: ls2) =
    Raises (UPException (t "Error parsing plan generated by " ++ cls_name)) /\
  plan_from_lines cls_name pb (ls1 ++ bad1 :: ls2) =
    plan_from_lines cls_name pb (ls1 ++ bad2 :: ls2').
Proof.
  intros Hacts H1 H2.
  rewrite !plan_from_lines_malformed, Hacts by assumption.
  split; reflexivity.
Qed.

End PlanFromFile.

(** * Concrete runs *)


(** C4 refuted: the error raised for the line [move a b] does not contain
    that line. *)
Lemma parse_error_lacks_line :
  exists msg, plan_from_file demo_cls demo_problem (lines ["move a b"%string]) = Raises (UPException msg) /\
              text_contains (t "move a b") msg = false.
Proof. exists (parse_error_message demo_cls). split; vm_compute; reflexivity. Qed.

(** C5 refuted: the deadline (5) has passed when the cycle at time 7 is
    observed, but both streams are at end of file there, so the loop
    breaks before the deadline check: no kill, and
    [timeout_occoured = False]. *)
Lemma deadline_on_eof_cycle_no_kill :
  Z.geb (Z.sub 7 0) 5 = true /\
  run_command Z.sub Z.geb demo_decode
    (Spawned (mkChild [demo_cycle (t "searching") [] 3%Z; demo_cycle [] [] 7%Z] false 0%Z))
    (Some 5%Z) false 0%Z =
  Returns (mkExecutionResult false ([t "searching"], [[]]) 0%Z, false, []).
Proof. split; vm_compute; reflexivity. Qed.

Lemma solve_status_timeout_rule_witness :
  demo_solve demo_problem (Some 5%Z) false demo_timed_out_world = Returns demo_timed_out_result /\
  exists res k sk,
    run_command Z.sub Z.geb demo_decode
      (exec demo_timed_out_world (solve_command demo_cmd demo_timed_out_world))
      (Some 5%Z) false (start_time demo_timed_out_world) = Returns (res, k, sk) /\
    (timeout_occurred res = true /\ retval res <> 0%Z -> status demo_timed_out_result = TIMEOUT) /\
    (~ (timeout_occurred res = true /\ retval res <> 0%Z) ->
       demo_status demo_problem (plan demo_timed_out_result) = Returns (status demo_timed_out_result)) /\
    ((forall p pl st, demo_status p pl = Returns st -> st <> TIMEOUT) ->
       (status demo_timed_out_result = TIMEOUT <-> timeout_occurred res = true /\ retval res <> 0%Z)).
Proof.
  assert (H : demo_solve demo_problem (Some 5%Z) false demo_timed_out_world =
              Returns demo_timed_out_result) by (vm_compute; reflexivity).
  split; [exact H|].
  exact (solve_status_timeout_rule Z.sub Z.geb demo_decode demo_cls demo_solver_name true
           demo_write demo_cmd demo_status demo_problem (Some 5%Z) false demo_timed_out_world
           demo_timed_out_result H).
Defined.

Lemma solve_logs_stdout_stderr_witness :
  demo_solve demo_problem (Some 5%Z) false demo_timed_out_world = Returns demo_timed_out_result /\
  exists res k sk,
    run_command Z.sub Z.geb demo_decode
      (exec demo_timed_out_world (solve_command demo_cmd demo_timed_out_world))
      (Some 5%Z) false (start_time demo_timed_out_world) = Returns (res, k, sk) /\
    log_messages demo_timed_out_result =
      [mkLogMessage INFO (List.concat (fst (outputs res)));
       mkLogMessage ERROR (List.concat (snd (outputs res)))].
Proof.
  assert (H : demo_solve demo_problem (Some 5%Z) false demo_timed_out_world =
              Returns demo_timed_out_result) by (vm_compute; reflexivity).
  split; [exact H|].
  exact (solve_logs_stdout_stderr Z.sub Z.geb demo_decode demo_cls demo_solver_name true
           demo_write demo_cmd demo_status demo_problem (Some 5%Z) false demo_timed_out_world
           demo_timed_out_result H).
Defined.

Lemma solve_spawn_failure_propagates_witness :
  demo_write demo_problem true = Returns tt /\
  exec (demo_world (SpawnFailed (t "No such file or directory")) None)
    (solve_command demo_cmd (demo_world (SpawnFailed (t "No such file or directory")) None))
    = SpawnFailed (t "No such file or directory") /\
  demo_solve demo_problem None false (demo_world (SpawnFailed (t "No such file or directory")) None)
    = Raises (SpawnError (t "No such file or directory")).
Proof.
  assert (H1 : demo_write demo_problem true = Returns tt) by reflexivity.
  assert (H2 : exec (demo_world (SpawnFailed (t "No such file or directory")) None)
                 (solve_command demo_cmd (demo_world (SpawnFailed (t "No such file or directory")) None))
               = SpawnFailed (t "No such file or directory")) by reflexivity.
  split; [exact H1|]. split; [exact H2|].
  exact (solve_spawn_failure_propagates Z.sub Z.geb demo_decode demo_cls demo_solver_name true
           demo_write demo_cmd demo_status demo_problem None false
           (demo_world (SpawnFailed (t "No such file or directory")) None)
           (t "No such file or directory") H1 H2).
Defined.

Lemma empty_plan_file_gives_empty_plan_witness :
  (forall l, In l (readlines (lines ["; no solution found"%string; "   "%string])) -> blank_or_comment l = true) /\
  plan_from_file demo_cls demo_problem (lines ["; no solution found"%string; "   "%string]) =
    Returns (mkSequentialPlan []) /\
  demo_solve demo_problem (Some 5%Z) false demo_quiet_world =
    Returns (mkPlanGenerationResult SUCCESS (Some (mkSequentialPlan []))
               [mkLogMessage INFO []; mkLogMessage ERROR []] demo_solver_name).
Proof.
  assert (H : forall l, In l (readlines (lines ["; no solution found"%string; "   "%string])) ->
                        blank_or_comment l = true).
  { intros l Hl. vm_compute in Hl. destruct Hl as [<-|[<-|[]]]; vm_compute; reflexivity. }
  destruct (empty_plan_file_gives_empty_plan Z.sub Z.geb demo_decode demo_cls demo_solver_name
              true demo_write demo_cmd demo_status demo_problem (Some 5%Z) false demo_quiet_world
              (lines ["; no solution found"%string; "   "%string]) H) as [Hp Hs].
  split; [exact H|]. split; [exact Hp|]. unfold demo_solve.
  rewrite (Hs (mkExecutionResult false ([], []) 0%Z) false [] eq_refl
              ltac:(vm_compute; reflexivity) eq_refl).
  vm_compute. reflexivity.
Defined.

Lemma malformed_line_aborts_parse_witness :
  readlines (lines ["(move a b)"%string; "move b a"%string]) = [t "(move a b)" ++ [lf]] ++ (t "move b a" ++ [lf]) :: [] /\
  malformed (t "move b a" ++ [lf]) = true /\
  plan_from_file demo_cls demo_problem (lines ["(move a b)"%string; "move b a"%string]) =
    Raises (UPException (parse_error_message demo_cls)).
Proof.
  assert (H1 : readlines (lines ["(move a b)"%string; "move b a"%string]) =
               [t "(move a b)" ++ [lf]] ++ (t "move b a" ++ [lf]) :: []) by (vm_compute; reflexivity).
  assert (H2 : malformed (t "move b a" ++ [lf]) = true) by (vm_compute; reflexivity).
  split; [exact H1|]. split; [exact H2|].
  apply (proj1 (proj2 (malformed_line_aborts_parse Z.sub Z.geb demo_decode demo_cls demo_solver_name
                          true demo_write demo_cmd demo_status demo_problem
                          (lines ["(move a b)"%string; "move b a"%string]) _ _ _ H1 H2))).
  exists [move_instance "a" "b"]. vm_compute. reflexivity.
Defined.

Lemma timeout_check_kills_and_returns_witness :
  drain Z.sub Z.geb demo_decode (Some 5%Z) 0%Z true true [demo_cycle (t "searching") [] 3%Z]
    (mkDrainState [] [] []) = DrainPending (mkDrainState [t "searching"] [[]] [t "searching"; []]) /\
  run_command Z.sub Z.geb demo_decode
    (Spawned (mkChild ([demo_cycle (t "searching") [] 3%Z] ++ demo_cycle (t "still") [] 7%Z ::
                       [demo_cycle [] [] 9%Z]) true (-9)%Z))
    (Some 5%Z) true 0%Z =
  Returns (mkExecutionResult true ([t "searching"; t "still"], [[]; []]) (-9)%Z, true,
           [t "searching"; []; t "still"; []]) /\
  run_command Z.sub Z.geb demo_decode
    (Spawned (mkChild ([demo_cycle (t "searching") [] 3%Z] ++ demo_cycle [] [] 7%Z ::
                       [demo_cycle (t "late") [] 9%Z]) true 0%Z))
    (Some 5%Z) true 0%Z =
  Returns (mkExecutionResult false ([t "searching"], [[]]) 0%Z, false, [t "searching"; []]).
Proof.
  assert (H : drain Z.sub Z.geb demo_decode (Some 5%Z) 0%Z true true
                [demo_cycle (t "searching") [] 3%Z] (mkDrainState [] [] []) =
              DrainPending (mkDrainState [t "searching"] [[]] [t "searching"; []]))
    by (vm_compute; reflexivity).
  split; [exact H|].
  destruct (timeout_check_kills_and_returns Z.sub Z.geb demo_decode
              [demo_cycle (t "searching") [] 3%Z] [demo_cycle [] [] 9%Z]
              (demo_cycle (t "still") [] 7%Z) true (-9)%Z 5%Z 0%Z true
              (mkDrainState [t "searching"] [[]] [t "searching"; []]) H) as [Hkill _].
  destruct (timeout_check_kills_and_returns Z.sub Z.geb demo_decode
              [demo_cycle (t "searching") [] 3%Z] [demo_cycle (t "late") [] 9%Z]
              (demo_cycle [] [] 7%Z) true 0%Z 5%Z 0%Z true
              (mkDrainState [t "searching"] [[]] [t "searching"; []]) H) as [_ [_ Heof]].
  split.
  - exact (Hkill (t "still") [] eq_refl eq_refl eq_refl eq_refl).
  - exact (Heof eq_refl).
Defined.

Lemma plan_roundtrip_structure_witness :
  plan_from_file demo_cls demo_problem (lines ["(move a b)"%string; "; step"%string; " ( move  b a ) "%string]) =
    Returns (mkSequentialPlan [move_instance "a" "b"; move_instance "b" "a"]) /\
  serialize_plan (mkSequentialPlan [move_instance "a" "b"; move_instance "b" "a"]) =
    spec_structure (lines ["(move a b)"%string; "; step"%string; " ( move  b a ) "%string]).
Proof.
  assert (H : plan_from_file demo_cls demo_problem (lines ["(move a b)"%string; "; step"%string; " ( move  b a ) "%string]) =
              Returns (mkSequentialPlan [move_instance "a" "b"; move_instance "b" "a"]))
    by (vm_compute; reflexivity).
  split; [exact H|].
  exact (plan_roundtrip_structure demo_cls demo_problem _ _ H).
Defined.


Lemma parse_error_message_omits_line_witness :
  plan_from_lines demo_cls demo_problem [t "(move a b)" ++ [lf]] = Returns [move_instance "a" "b"] /\
  plan_from_lines demo_cls demo_problem [t "(move a b)" ++ [lf]; t "move b a" ++ [lf]] =
    plan_from_lines demo_cls demo_problem
      ([t "(move a b)" ++ [lf]] ++ (t "(move a" ++ [lf]) :: [t "(move b a)" ++ [lf]]).
Proof.
  assert (H : plan_from_lines demo_cls demo_problem [t "(move a b)" ++ [lf]] =
              Returns [move_instance "a" "b"]) by (vm_compute; reflexivity).
  assert (H1 : malformed (t "move b a" ++ [lf]) = true) by (vm_compute; reflexivity).
  assert (H2 : malformed (t "(move a" ++ [lf]) = true) by (vm_compute; reflexivity).
  split; [exact H|].
  exact (proj2 (parse_error_message_omits_line demo_cls demo_problem [t "(move a b)" ++ [lf]] []
                  [t "(move b a)" ++ [lf]] (t "move b a" ++ [lf]) (t "(move a" ++ [lf])
                  [move_instance "a" "b"] H H1 H2)).
Defined.

(** * Further properties of the reading and splitting steps *)

Lemma concat_split_lines (s : text) : List.concat (split_lines s) = s.
Proof.
  induction s as [|c s IH]; [reflexivity|]. simpl.
  destruct (is_lf c); [simpl; rewrite IH; reflexivity|].
  destruct (split_lines s) as [|l ls]; simpl in *; subst; reflexivity.
Qed.

Lemma translate_newlines_out_no_cr (s : text) :
  forallb (fun c => negb (is_cr c)) (translate_newlines s) = true.
Proof.
  remember (List.length s) as n eqn:En. revert s En.
  induction n as [n IH] using lt_wf_ind. intros [|c s'] En; [reflexivity|].
  simpl in En. cbn [translate_newlines].
  destruct (is_cr c) eqn:Ec.
  - destruct s' as [|c2 s'']; [reflexivity|].
    destruct (is_lf c2); apply andb_true_iff; (split; [reflexivity|]).
    + exact (IH (List.length s'') ltac:(subst n; simpl; lia) s'' eq_refl).
    + exact (IH (List.length (c2 :: s'')) ltac:(subst n; simpl; lia) (c2 :: s'') eq_refl).
  - apply andb_true_iff. split; [rewrite Ec; reflexivity|].
    exact (IH (List.length s') ltac:(subst n; lia) s' eq_refl).
Qed.

Lemma split_lines_shape (s l : text) :
  In l (split_lines s) ->
  l <> [] /\ exists b, forallb (fun c => negb (is_lf c)) b = true /\ (l = b ++ [lf] \/ l = b).
Proof.
  revert l. induction s as [|c s IH]; intros l Hin; [destruct Hin|]. simpl in Hin.
  destruct (is_lf c) eqn:Ec.
  - destruct Hin as [<-|Hin]; [|exact (IH l Hin)].
    apply is_lf_true in Ec. subst c. split; [discriminate|]. exists []. split; [reflexivity|left; reflexivity].
  - destruct (split_lines s) as [|l0 ls] eqn:Es.
    + destruct Hin as [<-|[]]. split; [discriminate|].
      exists [c]. simpl. rewrite Ec. split; [reflexivity | right; reflexivity].
    + destruct Hin as [<-|Hin]; [|exact (IH l (or_intror Hin))].
      destruct (IH l0 (or_introl eq_refl)) as [_ (b & Hb & Hl0)].
      split; [discriminate|]. exists (c :: b). simpl. rewrite Ec, Hb.
      split; [reflexivity|]. destruct Hl0 as [->| ->]; [left|right]; reflexivity.
Qed.

Lemma split_lines_last (s : text) (ls : list text) (l : text) :
  split_lines s = ls ++ [l] -> forall l', In l' ls -> exists b, l' = b ++ [lf].
Proof.
  revert ls l. induction s as [|c s IH]; intros ls l H l' Hin.
  - simpl in H. destruct ls; discriminate.
  - simpl in H. destruct (is_lf c) eqn:Ec.
    + destruct ls as [|x ls]; [destruct Hin|]. injection H as <- H.
      destruct Hin as [<-|Hin]; [|exact (IH ls l H l' Hin)].
      apply is_lf_true in Ec. subst c. exists []. reflexivity.
    + destruct (split_lines s) as [|l0 ls0] eqn:Es.
      * destruct ls as [|x [|y ls]]; [destruct Hin | discriminate | discriminate].
      * destruct ls as [|x ls]; [destruct Hin|]. injection H as <- H.
        destruct Hin as [<-|Hin]; [|exact (IH (l0 :: ls) l (f_equal _ H) l' (or_intror Hin))].
        destruct (IH (l0 :: ls) l (f_equal _ H) l0 (or_introl eq_refl)) as [b ->].
        exists (c :: b). reflexivity.
Qed.

Lemma translate_crlf_encode (s : text) :
  forallb (fun c => negb (is_cr c)) s = true -> translate_newlines (crlf_encode s) = s.
Proof.
  induction s as [|c s IH]; intros H; [reflexivity|].
  simpl in H. apply andb_true_iff in H as [Hc H]. apply negb_true_iff in Hc.
  simpl. destruct (is_lf c) eqn:El.
  - apply is_lf_true in El. subst c. cbn [translate_newlines].
    replace (is_cr cr) with true by reflexivity. replace (is_lf lf) with true by reflexivity.
    rewrite (IH H). reflexivity.
  - cbn [translate_newlines]. rewrite Hc, (IH H). reflexivity.
Qed.

Lemma cr_encode_head_not_lf (s : text) :
  match cr_encode s with [] => True | c :: _ => is_lf c = false end.
Proof.
  destruct s as [|d s]; [exact I|]. simpl.
  destruct (is_lf d) eqn:E; [reflexivity | exact E].
Qed.

Lemma translate_cr_encode (s : text) :
  forallb (fun c => negb (is_cr c)) s = true -> translate_newlines (cr_encode s) = s.
Proof.
  induction s as [|c s IH]; intros H; [reflexivity|].
  simpl in H. apply andb_true_iff in H as [Hc H]. apply negb_true_iff in Hc.
  unfold cr_encode. cbn [map]. fold (cr_encode s).
  destruct (is_lf c) eqn:El.
  - apply is_lf_true in El. subst c. cbn [translate_newlines].
    replace (is_cr cr) with true by reflexivity.
    pose proof (cr_encode_head_not_lf s) as Hh.
    destruct (cr_encode s) as [|c2 s''] eqn:Ecs.
    + destruct s; [reflexivity | discriminate].
    + rewrite Hh, (IH H). reflexivity.
  - cbn [translate_newlines]. rewrite Hc, (IH H). reflexivity.
Qed.

Lemma split_on_aux_spec (sep : ascii -> bool) (s : text) :
  forallb (fun c => negb (sep c)) (fst (split_on_aux sep s)) = true /\
  Forall (fun x => x <> [] /\ forallb (fun c => negb (sep c)) x = true) (snd (split_on_aux sep s)) /\
  fst (split_on_aux sep s) ++ List.concat (snd (split_on_aux sep s)) =
    filter (fun c => negb (sep c)) s.
Proof.
  induction s as [|c s IH]; [repeat split; constructor|]. simpl.
  destruct (split_on_aux sep s) as [w ws]. cbn [fst snd] in *.
  destruct IH as (Hw & Hws & Hcat).
  destruct (sep c) eqn:Ec; cbn [fst snd negb].
  - unfold cons_word. split; [reflexivity|]. destruct w as [|x w'].
    + split; [exact Hws | exact Hcat].
    + split; [constructor; [split; [discriminate | exact Hw] | exact Hws] | exact Hcat].
  - split; [simpl; rewrite Ec, Hw; reflexivity|]. split; [exact Hws|].
    simpl. rewrite Hcat. reflexivity.
Qed.

Lemma replace_crlf_cons (c : ascii) (s' : text) :
  replace_crlf (c :: s') =
  if is_cr c then
    match s' with
    | c2 :: s'' => if is_lf c2 then lf :: replace_crlf s'' else c :: replace_crlf s'
    | [] => [c]
    end
  else c :: replace_crlf s'.
Proof. reflexivity. Qed.

Lemma replace_crlf_filter (s : text) :
  filter (fun c => negb (is_cr c)) (replace_crlf s) = filter (fun c => negb (is_cr c)) s /\
  List.length (replace_crlf s) <= List.length s.
Proof.
  remember (List.length s) as n eqn:En. revert s En.
  induction n as [n IH] using lt_wf_ind. intros [|c s'] En; [split; [reflexivity | subst n; simpl; lia]|].
  simpl in En. rewrite replace_crlf_cons.
  destruct (is_cr c) eqn:Ec.
  - destruct s' as [|c2 s'']; [split; [simpl; rewrite Ec; reflexivity | subst n; simpl; lia]|].
    destruct (is_lf c2) eqn:El.
    + destruct (IH (List.length s'') ltac:(subst n; simpl; lia) s'' eq_refl) as [Hf Hl].
      apply is_lf_true in El. subst c2.
      split; [|subst n; simpl in *; lia].
      cbn [filter]. rewrite Ec. replace (is_cr lf) with false by reflexivity. cbn [negb].
      rewrite Hf. reflexivity.
    + destruct (IH (List.length (c2 :: s'')) ltac:(subst n; simpl; lia) (c2 :: s'') eq_refl)
        as [Hf Hl].
      split; [|subst n; simpl in *; lia].
      cbn [filter]. rewrite Ec. cbn [negb]. exact Hf.
  - destruct (IH (List.length s') ltac:(subst n; lia) s' eq_refl) as [Hf Hl].
    split; [|subst n; simpl in *; lia]. cbn [filter]. rewrite Ec. cbn [negb]. rewrite Hf. reflexivity.
Qed.

(** X1: [plan.readlines()] loses nothing: its lines, put back together,
    give the text as read in universal-newline mode. *)
Theorem readlines_concat (content : text) :
  List.concat (readlines content) = translate_newlines content.
Proof. apply concat_split_lines. Qed.

(** X2: every line [readlines] yields is non-empty, contains no ["\r"],
    and holds ["\n"] at most as its last character; every line but the
    last ends in ["\n"]. *)
Theorem readlines_line_shape (content : text) :
  (forall l, In l (readlines content) ->
     l <> [] /\ forallb (fun c => negb (is_cr c)) l = true /\
     exists b, forallb (fun c => negb (is_lf c)) b = true /\ (l = b ++ [lf] \/ l = b)) /\
  (forall ls l, readlines content = ls ++ [l] -> forall l', In l' ls -> exists b, l' = b ++ [lf]).
Proof.
  split; [|apply split_lines_last].
  intros l Hin. destruct (split_lines_shape _ _ Hin) as [Hne Hb].
  split; [exact Hne|]. split; [|exact Hb].
  apply forallb_forall. intros c Hc.
  apply (proj1 (forallb_forall _ _) (translate_newlines_out_no_cr content)).
  rewrite <- (concat_split_lines (translate_newlines content)). apply in_concat. exists l. split; assumption.
Qed.

(** X3: a plan file written with Windows line ends (["\r\n"]) or with
    classic Mac line ends (["\r"]) parses exactly as the same file written
    with ["\n"]: the same plan, or the same error. *)
Theorem newline_conventions_agree (cls_name : text) (pb : Problem) (s : text) :
  forallb (fun c => negb (is_cr c)) s = true ->
  plan_from_file cls_name pb (crlf_encode s) = plan_from_file cls_name pb s /\
  plan_from_file cls_name pb (cr_encode s) = plan_from_file cls_name pb s.
Proof.
  intros H. unfold plan_from_file, readlines.
  rewrite translate_crlf_encode, translate_cr_encode, (translate_newlines_no_cr s) by exact H.
  split; reflexivity.
Qed.

Lemma py_split_tokens_aux (s : text) :
  Forall (fun x => x <> [] /\ forallb (fun c => negb (is_space c)) x = true) (py_split s) /\
  List.concat (py_split s) = filter (fun c => negb (is_space c)) s.
Proof.
  unfold py_split, split_on. pose proof (split_on_aux_spec is_space s) as (Hw & Hws & Hcat).
  destruct (split_on_aux is_space s) as [w ws]. cbn [fst snd] in *.
  unfold cons_word. destruct w as [|x w'].
  - split; [exact Hws | exact Hcat].
  - split; [constructor; [split; [discriminate | exact Hw] | exact Hws] | exact Hcat].
Qed.

(** X4: [str.split()] drops exactly the whitespace: every token is
    non-empty and whitespace-free, and the tokens put together are the
    text with its whitespace removed. *)
Theorem py_split_tokens (s : text) :
  Forall (fun x => x <> [] /\ forallb (fun c => negb (is_space c)) x = true) (py_split s) /\
  List.concat (py_split s) = filter (fun c => negb (is_space c)) s.
Proof. exact (py_split_tokens_aux s). Qed.

(** X5: [.replace('\r\n', '\n')] on a captured line only ever deletes
    ["\r"] characters: with the ["\r"]s left out, the line is unchanged, so
    every other character, ["\n"] included, is kept in order. *)
Theorem replace_crlf_only_deletes_cr (s : text) :
  filter (fun c => negb (is_cr c)) (replace_crlf s) = filter (fun c => negb (is_cr c)) s /\
  List.length (replace_crlf s) <= List.length s.
Proof. apply replace_crlf_filter. Qed.

(** * Further properties of the two regular expressions and the plan file *)

Lemma span_all (p : ascii -> bool) (s : text) : forallb p s = true -> span p s = (s, []).
Proof.
  induction s as [|c s IH]; [reflexivity|]. simpl. intros H.
  apply andb_true_iff in H as [Hc H]. rewrite Hc, (IH H). reflexivity.
Qed.

Lemma span_app_all (p : ascii -> bool) (s x : text) :
  forallb p x = true ->
  span p (s ++ x) = if forallb p s then (s ++ x, []) else (fst (span p s), snd (span p s) ++ x).
Proof.
  intros Hx. induction s as [|c s IH]; [exact (span_all p x Hx)|]. simpl.
  destruct (p c); [|reflexivity]. cbn [andb]. rewrite IH.
  destruct (forallb p s); [reflexivity|]. destruct (span p s); reflexivity.
Qed.

Lemma span_app_notall (p : ascii -> bool) (s x : text) :
  forallb p s = false -> span p (s ++ x) = (fst (span p s), snd (span p s) ++ x).
Proof.
  induction s as [|c s IH]; [discriminate|]. simpl. intros H.
  destruct (p c); [|reflexivity]. cbn [andb] in H. rewrite (IH H).
  destruct (span p s); reflexivity.
Qed.

Lemma span_rest_nil (p : ascii -> bool) (s a : text) : span p s = (a, []) -> forallb p s = true.
Proof. intros E. destruct (span_spec _ _ _ _ E) as (-> & Ha & _). rewrite app_nil_r. exact Ha. Qed.

Lemma head_not_tok_of_spaces (ws : text) : forallb is_space ws = true -> head_not is_tok ws.
Proof.
  destruct ws as [|c ws]; [intros _; exact I|]. simpl. intros H.
  apply is_space_not_tok. apply andb_true_iff in H. apply H.
Qed.

Lemma snd_span_space_prefix (ws l : text) :
  forallb is_space ws = true -> snd (span is_space (ws ++ l)) = snd (span is_space l).
Proof.
  induction ws as [|c ws IH]; [reflexivity|]. simpl. intros H.
  apply andb_true_iff in H as [Hc H]. rewrite Hc.
  rewrite <- (IH H). destruct (span is_space (ws ++ l)); reflexivity.
Qed.

Lemma params_group_nil (f : nat) : params_group f [] = ([], []).
Proof. destruct f; reflexivity. Qed.

Lemma params_group_spaces (f : nat) (ws : text) :
  forallb is_space ws = true -> params_group f ws = ([], ws).
Proof.
  intros H. destruct f as [|f]; [reflexivity|]. cbn [params_group].
  rewrite (span_all _ _ H). destruct ws; reflexivity.
Qed.

Lemma params_group_app_space (f : nat) (s ws : text) :
  forallb is_space ws = true ->
  params_group f (s ++ ws) = (fst (params_group f s), snd (params_group f s) ++ ws).
Proof.
  intros Hws. revert s. induction f as [|f IH]; intros s; [reflexivity|].
  cbn [params_group]. rewrite (span_app_all is_space s ws Hws).
  destruct (forallb is_space s) eqn:Hs.
  { rewrite (span_all _ _ Hs). destruct s, ws; reflexivity. }
  destruct (span is_space s) as [a b] eqn:E1. cbn [fst snd].
  destruct (forallb is_tok b) eqn:Hb.
  - rewrite (span_app_stop is_tok b ws Hb (head_not_tok_of_spaces ws Hws)), (span_all _ _ Hb).
    rewrite (params_group_spaces f ws Hws), params_group_nil.
    destruct a, b; reflexivity.
  - rewrite (span_app_notall is_tok b ws Hb).
    destruct (span is_tok b) as [c d]. cbn [fst snd]. rewrite IH.
    destruct a, c; try reflexivity. destruct (params_group f d); reflexivity.
Qed.

Lemma params_group_S (f : nat) (s : text) :
  params_group (S f) s =
  let (ws, r) := span is_space s in
  let (tok, r') := span is_tok r in
  match ws, tok with
  | _ :: _, _ :: _ => let (g, rest) := params_group f r' in (ws ++ tok ++ g, rest)
  | _, _ => ([], s)
  end.
Proof. reflexivity. Qed.

Lemma params_group_fuel (f : nat) (s : text) :
  List.length s <= f -> params_group (S f) s = params_group f s.
Proof.
  revert s. induction f as [|f IH]; intros s Hlen.
  - destruct s; [reflexivity | simpl in Hlen; lia].
  - rewrite (params_group_S (S f) s), (params_group_S f s).
    destruct (span is_space s) as [a b] eqn:E1. destruct (span is_tok b) as [c d] eqn:E2.
    destruct (span_spec _ _ _ _ E1) as (Es & _ & _).
    destruct (span_spec _ _ _ _ E2) as (Eb & _ & _).
    destruct a as [|x a], c as [|y c]; try reflexivity.
    rewrite IH; [reflexivity|]. subst s b. rewrite !length_app in Hlen. simpl in Hlen. lia.
Qed.

Lemma params_group_fuel_ge (f : nat) (s : text) :
  List.length s <= f -> params_group f s = params_group (List.length s) s.
Proof.
  induction f as [|f IH]; intros Hlen.
  - assert (List.length s = 0) as -> by lia. reflexivity.
  - destruct (Nat.eq_dec (List.length s) (S f)) as [->|Hne]; [reflexivity|].
    rewrite params_group_fuel by lia. apply IH. lia.
Qed.

Lemma dot_star_end_app_nolf (r ws : text) :
  forallb (fun c => negb (is_lf c)) r = true -> dot_star_end (r ++ ws) = dot_star_end ws.
Proof.
  induction r as [|c r IH]; [reflexivity|]. simpl. intros H.
  apply andb_true_iff in H as [Hc H]. apply negb_true_iff in Hc. rewrite Hc. exact (IH H).
Qed.

Lemma returned_bind {A B} (m : outcome A) (k : A -> outcome B) :
  returned (bind m k) = match returned m with Some a => returned (k a) | None => None end.
Proof. destruct m; reflexivity. Qed.

Lemma problem_action_returned (pb : Problem) (l1 l2 name : text) :
  returned (problem_action pb l1 name) = returned (problem_action pb l2 name).
Proof. unfold problem_action. destruct (find _ _); reflexivity. Qed.

Lemma problem_object_returned (pb : Problem) (l1 l2 name : text) :
  returned (problem_object pb l1 name) = returned (problem_object pb l2 name).
Proof. unfold problem_object. destruct (find _ _); reflexivity. Qed.

Lemma resolve_parameters_returned (pb : Problem) (l1 l2 : text) (ps : list text) :
  returned (resolve_parameters pb l1 ps) = returned (resolve_parameters pb l2 ps).
Proof.
  induction ps as [|p ps IH]; [reflexivity|]. cbn [resolve_parameters].
  rewrite !returned_bind, (problem_object_returned pb l1 l2).
  destruct (returned (problem_object pb l2 p)); [|reflexivity].
  rewrite !returned_bind, IH. reflexivity.
Qed.

Lemma plan_from_lines_line_irrelevant (cls_name : text) (pb : Problem) (l1 l2 : text)
  (rest : list text) :
  match_blank l1 = match_blank l2 -> match_action l1 = match_action l2 ->
  returned (plan_from_lines cls_name pb (l1 :: rest)) =
  returned (plan_from_lines cls_name pb (l2 :: rest)).
Proof.
  intros Hb Ha. cbn [plan_from_lines]. rewrite Hb, Ha.
  destruct (match_blank l2); [reflexivity|].
  destruct (match_action l2) as [[g1 g2]|]; [|reflexivity].
  rewrite !returned_bind, (problem_action_returned pb l1 l2).
  destruct (returned (problem_action pb l2 g1)); [|reflexivity].
  rewrite !returned_bind, (resolve_parameters_returned pb l1 l2).
  reflexivity.
Qed.

Lemma plan_from_lines_app (cls_name : text) (pb : Problem) (ls1 ls2 : list text) :
  plan_from_lines cls_name pb (ls1 ++ ls2) =
  (a1 <- plan_from_lines cls_name pb ls1 ;;
   a2 <- plan_from_lines cls_name pb ls2 ;;
   Returns (a1 ++ a2)).
Proof.
  induction ls1 as [|l ls1 IH].
  - simpl. destruct (plan_from_lines cls_name pb ls2); reflexivity.
  - cbn [app plan_from_lines]. destruct (match_blank l); [exact IH|].
    destruct (match_action l) as [[g1 g2]|]; [|reflexivity].
    destruct (problem_action pb l g1); simpl; try reflexivity.
    destruct (resolve_parameters pb l (py_split g2)); simpl; try reflexivity.
    rewrite IH. destruct (plan_from_lines cls_name pb ls1); simpl; try reflexivity.
    destruct (plan_from_lines cls_name pb ls2); reflexivity.
Qed.

(** X6: no line matches both patterns: a blank or comment line is never
    an action line, so testing the comment pattern first changes nothing. *)
Theorem patterns_disjoint (line : text) :
  match_blank line = true -> match_action line = None.
Proof.
  unfold match_blank, match_action.
  destruct (snd (span is_space line)) as [|c r]; [reflexivity|].
  intros H. apply andb_true_iff in H as [Hc _]. apply Ascii.eqb_eq in Hc. subst c.
  reflexivity.
Qed.

(** X7: leading whitespace never matters: indenting a line changes
    neither whether it is blank or a comment nor whether it is an action
    line and what the two groups capture. *)
Theorem leading_whitespace_ignored (ws line : text) :
  forallb is_space ws = true ->
  match_blank (ws ++ line) = match_blank line /\ match_action (ws ++ line) = match_action line.
Proof.
  intros H. unfold match_blank, match_action. rewrite (snd_span_space_prefix ws line H).
  split; reflexivity.
Qed.

Lemma trailing_whitespace_ignored_aux (line ws : text) :
  forallb is_space ws = true ->
  match_action (line ++ ws) = match_action line /\
  (forallb (fun c => negb (is_lf c)) line = true -> dot_star_end ws = true ->
   match_blank (line ++ ws) = match_blank line).
Proof.
  intros Hws. split.
  - unfold match_action. rewrite (span_app_all is_space line ws Hws).
    destruct (forallb is_space line) eqn:Hl; [rewrite (span_all _ _ Hl); reflexivity|].
    destruct (span is_space line) as [a1 r1] eqn:E1. cbn [fst snd].
    destruct r1 as [|c r2]; [apply span_rest_nil in E1; congruence|]. cbn [app].
    destruct (Ascii.eqb c lparen); [|reflexivity].
    rewrite (span_app_all is_space r2 ws Hws).
    destruct (forallb is_space r2) eqn:Hr2; [rewrite (span_all _ _ Hr2); reflexivity|].
    destruct (span is_space r2) as [a2 r3] eqn:E2. cbn [fst snd].
    destruct (forallb is_tok r3) eqn:Hr3.
    + rewrite (span_app_stop is_tok r3 ws Hr3 (head_not_tok_of_spaces ws Hws)), (span_all _ _ Hr3).
      destruct r3 as [|x r3']; [apply span_rest_nil in E2; congruence|].
      rewrite (params_group_spaces _ ws Hws), (span_all _ _ Hws). reflexivity.
    + rewrite (span_app_notall is_tok r3 ws Hr3).
      destruct (span is_tok r3) as [name r4]. cbn [fst snd].
      destruct name as [|n name']; [reflexivity|].
      rewrite (params_group_app_space _ r4 ws Hws).
      rewrite (params_group_fuel_ge (List.length (r4 ++ ws)) r4) by (rewrite length_app; lia).
      destruct (params_group (List.length r4) r4) as [g2 r5]. cbn [fst snd].
      rewrite (span_app_all is_space r5 ws Hws).
      destruct (forallb is_space r5) eqn:Hr5; [rewrite (span_all _ _ Hr5); reflexivity|].
      destruct (span is_space r5) as [a5 r6] eqn:E5. cbn [fst snd].
      destruct r6 as [|c' r7]; [apply span_rest_nil in E5; congruence|]. cbn [app].
      rewrite forallb_app, Hws, andb_true_r. reflexivity.
  - intros Hl Hd. unfold match_blank. rewrite (span_app_all is_space line ws Hws).
    destruct (forallb is_space line) eqn:Hsp; [rewrite (span_all _ _ Hsp); reflexivity|].
    destruct (span is_space line) as [a r] eqn:E. cbn [fst snd].
    destruct (span_spec _ _ _ _ E) as (Eline & _ & _).
    destruct r as [|c r]; [apply span_rest_nil in E; congruence|]. cbn [app].
    subst line. rewrite forallb_app in Hl. apply andb_true_iff in Hl as [_ Hl].
    simpl in Hl. apply andb_true_iff in Hl as [_ Hr].
    rewrite (dot_star_end_app_nolf r ws Hr), Hd.
    rewrite <- (app_nil_r r), (dot_star_end_app_nolf r [] Hr). reflexivity.
Qed.

(** X8: trailing whitespace never changes whether a line is an action
    line nor what the two groups capture.  On a line without ["\n"] it
    does not change whether the line is blank or a comment either, as long
    as the added whitespace holds ["\n"] at most as its last character. *)
Theorem trailing_whitespace_ignored (line ws : text) :
  forallb is_space ws = true ->
  match_action (line ++ ws) = match_action line /\
  (forallb (fun c => negb (is_lf c)) line = true -> dot_star_end ws = true ->
   match_blank (line ++ ws) = match_blank line).
Proof. exact (trailing_whitespace_ignored_aux line ws). Qed.

(** X9: plan files compose: when the first text ends a line (or is
    empty), the concatenation of two plan texts parses to the actions of
    the first followed by those of the second, and fails with the first
    text's error, then the second's, when one of them fails. *)
Theorem plan_file_concat (cls_name : text) (pb : Problem) (t1 t2 : text) :
  (t1 = [] \/ exists a0, t1 = a0 ++ [lf]) ->
  plan_from_file cls_name pb (t1 ++ t2) =
  (p1 <- plan_from_file cls_name pb t1 ;;
   p2 <- plan_from_file cls_name pb t2 ;;
   Returns (mkSequentialPlan (plan_actions p1 ++ plan_actions p2))).
Proof.
  intros Ht1.
  destruct (readlines_around_line t1 t2 [] Ht1 eq_refl) as (_ & Hcat & _).
  unfold plan_from_file. rewrite Hcat, plan_from_lines_app.
  destruct (plan_from_lines cls_name pb (readlines t1)); simpl; try reflexivity.
  destruct (plan_from_lines cls_name pb (readlines t2)); reflexivity.
Qed.

(** The final ["\n"] after a last line without ["\n"] or ["\r"]. *)
Lemma final_newline_lf_aux (cls_name : text) (pb : Problem) (t1 b : text) :
  (t1 = [] \/ exists a0, t1 = a0 ++ [lf]) ->
  forallb (fun c => negb (is_lf c) && negb (is_cr c)) b = true ->
  forall p, plan_from_file cls_name pb (t1 ++ b ++ [lf]) = Returns p <->
            plan_from_file cls_name pb (t1 ++ b) = Returns p.
Proof.
  intros Ht1 Hb.
  assert (Hlf : forallb (fun c => negb (is_lf c)) b = true).
  { apply forallb_forall. intros c Hc. apply (proj1 (forallb_forall _ b) Hb) in Hc.
    apply andb_true_iff in Hc. apply Hc. }
  assert (Hr : returned (plan_from_file cls_name pb (t1 ++ b ++ [lf])) =
               returned (plan_from_file cls_name pb (t1 ++ b))).
  { destruct (readlines_around_line t1 [] b Ht1 Hb) as (Hmid & _ & Hlast).
    rewrite app_nil_r in Hmid. unfold plan_from_file. rewrite Hmid, Hlast.
    change (readlines []) with (@nil text).
    rewrite !plan_from_lines_app, !returned_bind.
    destruct (returned (plan_from_lines cls_name pb (readlines t1))); [|reflexivity].
    rewrite !returned_bind.
    destruct b as [|c b'].
    - reflexivity.
    - change (@cons (list ascii)) with (@cons text).
      rewrite (plan_from_lines_line_irrelevant cls_name pb ((c :: b') ++ [lf]) (c :: b') []);
        [reflexivity| |].
      + destruct (trailing_whitespace_ignored_aux (c :: b') [lf] eq_refl) as [_ H].
        exact (H Hlf eq_refl).
      + exact (proj1 (trailing_whitespace_ignored_aux (c :: b') [lf] eq_refl)). }
  intros p. split; intros H; rewrite H in Hr; simpl in Hr;
    [ destruct (plan_from_file cls_name pb (t1 ++ b))
    | destruct (plan_from_file cls_name pb (t1 ++ b ++ [lf])) ];
    simpl in Hr; try discriminate; injection Hr as ->; reflexivity.
Qed.

(** * Further properties of [run_command] *)

Lemma interleave_snoc (o e : list text) (x y : text) :
  List.length o = List.length e -> interleave (o ++ [x]) (e ++ [y]) = interleave o e ++ [x; y].
Proof.
  revert e. induction o as [|a o IH]; intros [|b e] H; simpl in H; try discriminate; [reflexivity|].
  simpl. rewrite IH by lia. reflexivity.
Qed.

Lemma params_group_chars (f : nat) (s g r : text) :
  params_group f s = (g, r) -> forallb (fun c => is_space c || is_tok c) g = true.
Proof.
  revert s g r. induction f as [|f IH]; intros s g r H; [injection H as <- _; reflexivity|].
  rewrite params_group_S in H.
  destruct (span is_space s) as [ws r1] eqn:E1. destruct (span is_tok r1) as [tok r2] eqn:E2.
  destruct (span_spec _ _ _ _ E1) as (_ & Hws & _).
  destruct (span_spec _ _ _ _ E2) as (_ & Htok & _).
  destruct ws as [|w ws], tok as [|k tok]; try (injection H as <- _; reflexivity).
  destruct (params_group f r2) as [g' r'] eqn:E3. injection H as <- _.
  change (w :: ws ++ k :: tok ++ g') with ((w :: ws) ++ (k :: tok) ++ g').
  rewrite !forallb_app, (IH _ _ _ E3).
  assert (Hw : forallb (fun c => is_space c || is_tok c) (w :: ws) = true).
  { apply forallb_forall. intros c Hc. apply (proj1 (forallb_forall _ _) Hws) in Hc. rewrite Hc. reflexivity. }
  assert (Hk : forallb (fun c => is_space c || is_tok c) (k :: tok) = true).
  { apply forallb_forall. intros c Hc. apply (proj1 (forallb_forall _ _) Htok) in Hc.
    rewrite Hc, orb_true_r. reflexivity. }
  rewrite Hw, Hk. reflexivity.
Qed.

Section RunCommandMore.

Context {Time : Type} (time_sub : Time -> Time -> Time) (time_ge : Time -> Time -> bool)
  (decode : text -> option text).

Local Abbreviation RUN := (run_command time_sub time_ge decode).
Local Abbreviation DRAIN := (drain time_sub time_ge decode).

Ltac step_cases c :=
  unfold drain_step, record_output in *; cbv zeta in *;
  destruct (eof_cycle c);
  [ simpl in * | destruct (decode (read_line (read_stdout c)));
        [ destruct (decode (read_line (read_stderr c))); [|simpl; try discriminate]
        | simpl; try discriminate ] ].

Lemma drain_exit_flags (tmo : option Time) (start : Time) (hs kr : bool)
  (cs : list (poll_cycle Time)) (st st' : drain_state) (a k : bool) :
  DRAIN tmo start hs kr cs st = DrainExit a k st' -> a = k /\ (tmo = None -> a = false).
Proof.
  revert st. induction cs as [|c cs IH]; intros st H; [discriminate|].
  simpl in H. step_cases c.
  - injection H as <- <- _. split; reflexivity.
  - destruct tmo as [tmo|]; [|exact (IH _ H)].
    destruct (time_ge _ _); [|exact (IH _ H)].
    rewrite kill_swallowing_oserror_none in H. injection H as <- <- _.
    split; [reflexivity | discriminate].
Qed.

Lemma drain_exit_outputs (tmo : option Time) (start : Time) (hs kr : bool)
  (cs : list (poll_cycle Time)) (st st' : drain_state) (a k : bool) :
  DRAIN tmo start hs kr cs st = DrainExit a k st' ->
  List.length (proc_out st) = List.length (proc_err st) ->
  sink st = (if hs then interleave (proc_out st) (proc_err st) else []) ->
  List.length (proc_out st') = List.length (proc_err st') /\
  sink st' = (if hs then interleave (proc_out st') (proc_err st') else []).
Proof.
  revert st. induction cs as [|c cs IH]; intros st H Hlen Hsk; [discriminate|].
  simpl in H. step_cases c.
  - injection H as _ _ <-. split; assumption.
  - set (st2 := mkDrainState (proc_out st ++ [replace_crlf t0]) (proc_err st ++ [replace_crlf t1])
                  (if hs then (sink st ++ [replace_crlf t0]) ++ [replace_crlf t1] else sink st)).
    assert (Hlen2 : List.length (proc_out st2) = List.length (proc_err st2)).
    { subst st2. simpl. rewrite !length_app. simpl. lia. }
    assert (Hsk2 : sink st2 = (if hs then interleave (proc_out st2) (proc_err st2) else [])).
    { subst st2. simpl. destruct hs; [|exact Hsk].
      rewrite Hsk, interleave_snoc, <- app_assoc by exact Hlen. reflexivity. }
    destruct tmo as [tmo|].
    + destruct (time_ge _ _).
      * rewrite kill_swallowing_oserror_none in H. injection H as _ _ <-.
        destruct hs; split; assumption.
      * destruct hs; exact (IH _ H Hlen2 Hsk2).
    + destruct hs; exact (IH _ H Hlen2 Hsk2).
Qed.

Lemma drain_strip (tmo : option Time) (start : Time) (hs kr : bool)
  (cs : list (poll_cycle Time)) (st : drain_state) :
  strip_result (DRAIN tmo start hs kr cs st) =
  strip_result (DRAIN tmo start false kr cs (strip_sink st)).
Proof.
  revert st. induction cs as [|c cs IH]; intros st; [reflexivity|].
  simpl. step_cases c; try reflexivity.
  destruct tmo as [tmo|]; [destruct (time_ge _ _)|];
    [ rewrite kill_swallowing_oserror_none; reflexivity | | ];
    rewrite IH; reflexivity.
Qed.

Lemma drain_no_deadline (tmo : Time) (start : Time) (hs kr : bool)
  (cs : list (poll_cycle Time)) (st : drain_state) :
  (forall c, In c cs -> time_ge (time_sub (clock c) start) tmo = false) ->
  DRAIN (Some tmo) start hs kr cs st = DRAIN None start hs kr cs st.
Proof.
  revert st. induction cs as [|c cs IH]; intros st H; [reflexivity|].
  simpl. step_cases c; try reflexivity.
  rewrite (H c (or_introl eq_refl)). apply IH. intros c' Hc'. apply H. right. exact Hc'.
Qed.

Lemma drain_decoded (start : Time) (hs kr : bool) (pre : list (poll_cycle Time)) (st : drain_state) :
  Forall (fun c => eof_cycle c = false /\ decode (read_line (read_stdout c)) <> None /\
                   decode (read_line (read_stderr c)) <> None) pre ->
  exists sk, DRAIN None start hs kr pre st =
    DrainPending (mkDrainState (proc_out st ++ map (fun c => decoded_line decode (read_stdout c)) pre)
                               (proc_err st ++ map (fun c => decoded_line decode (read_stderr c)) pre) sk).
Proof.
  intros Hpre. revert st. induction Hpre as [|c pre [He [H0 H1]] _ IH]; intros st.
  - exists (sink st). rewrite !app_nil_r. destruct st; reflexivity.
  - simpl. unfold drain_step, record_output. rewrite He.
    destruct (decode (read_line (read_stdout c))) as [s0|] eqn:D0; [|congruence].
    destruct (decode (read_line (read_stderr c))) as [s1|] eqn:D1; [|congruence].
    destruct (IH (mkDrainState (proc_out st ++ [replace_crlf s0]) (proc_err st ++ [replace_crlf s1])
                   (if hs then (sink st ++ [replace_crlf s0]) ++ [replace_crlf s1] else sink st)))
      as [sk Hsk].
    exists sk. destruct hs; simpl in Hsk |- *; rewrite Hsk; unfold decoded_line; rewrite D0, D1;
      rewrite <- !app_assoc; reflexivity.
Qed.

(** X11: each polling cycle that is not the end of both streams appends
    exactly one entry to the stdout list and one to the stderr list (an
    empty one for a read that timed out), so the two lists returned always
    have the same length. *)
Theorem run_outputs_same_length (spawn : spawn_outcome Time) (tmo : option Time) (hs : bool)
  (start : Time) (res : ExecutionResult) (k : bool) (sk : list text) :
  RUN spawn tmo hs start = Returns (res, k, sk) ->
  List.length (fst (outputs res)) = List.length (snd (outputs res)).
Proof.
  unfold run_command. destruct spawn as [ch|]; [|discriminate].
  destruct (DRAIN tmo start hs _ _ _) as [a k' st| |] eqn:E; try discriminate.
  intros H. injection H as <- _ _. simpl.
  exact (proj1 (drain_exit_outputs _ _ _ _ _ _ _ _ _ E eq_refl
                  ltac:(destruct hs; reflexivity))).
Qed.

(** X12: [process.kill()] is called exactly when the run reports
    [timeout_occoured], and never when no timeout was given. *)
Theorem run_kill_iff_timeout (spawn : spawn_outcome Time) (tmo : option Time) (hs : bool)
  (start : Time) (res : ExecutionResult) (k : bool) (sk : list text) :
  RUN spawn tmo hs start = Returns (res, k, sk) ->
  k = timeout_occurred res /\ (tmo = None -> timeout_occurred res = false).
Proof.
  unfold run_command. destruct spawn as [ch|]; [|discriminate].
  destruct (DRAIN tmo start hs _ _ _) as [a k' st| |] eqn:E; try discriminate.
  intros H. injection H as <- <- _. simpl.
  destruct (drain_exit_flags _ _ _ _ _ _ _ _ _ E) as [-> Hn]. split; [reflexivity | exact Hn].
Qed.

(** X13: what is written to [output_stream] is exactly the captured
    output, in the order it was read: for each cycle its stdout line, then
    its stderr line.  Nothing is written when there is no stream. *)
Theorem run_output_stream_mirrors (spawn : spawn_outcome Time) (tmo : option Time) (hs : bool)
  (start : Time) (res : ExecutionResult) (k : bool) (sk : list text) :
  RUN spawn tmo hs start = Returns (res, k, sk) ->
  sk = if hs then interleave (fst (outputs res)) (snd (outputs res)) else [].
Proof.
  unfold run_command. destruct spawn as [ch|]; [|discriminate].
  destruct (DRAIN tmo start hs _ _ _) as [a k' st| |] eqn:E; try discriminate.
  intros H. injection H as <- _ <-. simpl.
  exact (proj2 (drain_exit_outputs _ _ _ _ _ _ _ _ _ E eq_refl
                  ltac:(destruct hs; reflexivity))).
Qed.

(** X15: a timeout that is never reached changes nothing: when every
    deadline check finds less time elapsed than the timeout, the run is the
    same as without a timeout. *)
Theorem unreached_timeout_irrelevant (ch : child Time) (tmo : Time) (hs : bool) (start : Time) :
  (forall c, In c (cycles _ ch) -> time_ge (time_sub (clock c) start) tmo = false) ->
  RUN (Spawned ch) (Some tmo) hs start = RUN (Spawned ch) None hs start.
Proof.
  intros H. unfold run_command. rewrite drain_no_deadline by exact H. reflexivity.
Qed.

(** X16: without a timeout, [run_command] reads until the first cycle
    where both streams are at end of file, and returns every line read
    before it, decoded with ["
"] replaced, an empty string for a read
    that timed out, with [timeout_occoured = False] and the exit code of
    the process. *)
Theorem run_until_eof (pre post : list (poll_cycle Time)) (c : poll_cycle Time) (kr : bool)
  (rc : Z) (hs : bool) (start : Time) :
  Forall (fun c => eof_cycle c = false /\ decode (read_line (read_stdout c)) <> None /\
                   decode (read_line (read_stderr c)) <> None) pre ->
  eof_cycle c = true ->
  exists sk, RUN (Spawned (mkChild (pre ++ c :: post) kr rc)) None hs start =
    Returns (mkExecutionResult false
               (map (fun c => decoded_line decode (read_stdout c)) pre,
                map (fun c => decoded_line decode (read_stderr c)) pre) rc,
             false, sk).
Proof.
  intros Hpre Hc. destruct (drain_decoded start hs kr pre (mkDrainState [] [] []) Hpre) as [sk Hd].
  exists sk. unfold run_command. cbn [cycles kill_raises_oserror returncode].
  rewrite drain_app, Hd. simpl. unfold drain_step. rewrite Hc. reflexivity.
Qed.

(** X17: a line that cannot be decoded aborts [run_command] with the
    decoding error, with or without a timeout, once the run reaches it (no
    earlier deadline check found the timeout passed): the stdout line of
    the cycle is decoded first, then its stderr line, and the first that
    fails is the error.  No result is returned, and the lines captured so
    far are lost. *)
Theorem run_decode_error (pre post : list (poll_cycle Time)) (c : poll_cycle Time) (kr : bool)
  (rc : Z) (tmo : option Time) (hs : bool) (start : Time) :
  Forall (fun c => eof_cycle c = false /\ decode (read_line (read_stdout c)) <> None /\
                   decode (read_line (read_stderr c)) <> None) pre ->
  (forall c', In c' pre ->
     match tmo with Some d => time_ge (time_sub (clock c') start) d = false | None => True end) ->
  eof_cycle c = false ->
  (decode (read_line (read_stdout c)) = None ->
   RUN (Spawned (mkChild (pre ++ c :: post) kr rc)) tmo hs start =
     Raises (DecodeError (read_line (read_stdout c)))) /\
  (decode (read_line (read_stdout c)) <> None -> decode (read_line (read_stderr c)) = None ->
   RUN (Spawned (mkChild (pre ++ c :: post) kr rc)) tmo hs start =
     Raises (DecodeError (read_line (read_stderr c)))).
Proof.
  intros Hpre Hdl Hc.
  assert (Hd : DRAIN tmo start hs kr pre (mkDrainState [] [] []) =
               DRAIN None start hs kr pre (mkDrainState [] [] [])).
  { destruct tmo as [d|]; [apply drain_no_deadline; exact Hdl | reflexivity]. }
  destruct (drain_decoded start hs kr pre (mkDrainState [] [] []) Hpre) as [sk E].
  unfold run_command. cbn [cycles kill_raises_oserror returncode].
  rewrite drain_app, Hd, E. simpl. unfold drain_step, record_output. rewrite Hc.
  split.
  - intros H0. rewrite H0. reflexivity.
  - intros H0 H1. destruct (decode (read_line (read_stdout c))); [|congruence].
    rewrite H1. reflexivity.
Qed.

End RunCommandMore.

(** * Further properties of [solve] *)

Section SolveMore.

Context {Time : Type} (time_sub : Time -> Time -> Time) (time_ge : Time -> Time -> bool)
  (decode : text -> option text) (cls_name solver_name : text) (needs_requirements : bool)
  (write_pddl : Problem -> bool -> outcome unit)
  (get_cmd : text -> text -> text -> list text).

Local Abbreviation SOLVE := (solve time_sub time_ge decode cls_name solver_name
  needs_requirements write_pddl get_cmd).
Local Abbreviation RUN := (run_command time_sub time_ge decode).

(** X18: the plan of a returned result is [None] exactly when there was
    no plan file, and otherwise the plan parsed from its content. *)
Theorem solve_plan_mirrors_plan_file
  (result_status : Problem -> option SequentialPlan -> outcome Status)
  (pb : Problem) (tmo : option Time) (hs : bool) (w : world Time) (r : PlanGenerationResult) :
  SOLVE result_status pb tmo hs w = Returns r ->
  match plan_file w with
  | None => plan r = None
  | Some content => exists p, plan_from_file cls_name pb content = Returns p /\ plan r = Some p
  end.
Proof.
  intros H.
  destruct (solve_returns_inv time_sub time_ge decode cls_name solver_name needs_requirements
              write_pddl get_cmd result_status pb tmo hs w r H)
    as (res & k & sk & p & _ & _ & Hp & <- & _).
  unfold read_plan in Hp. destruct (plan_file w) as [content|].
  - destruct (plan_from_file cls_name pb content) as [p'| |]; try discriminate.
    injection Hp as <-. exists p'. split; reflexivity.
  - injection Hp as <-. reflexivity.
Qed.

(** X19: an error raised while parsing an existing plan file escapes
    [solve] unchanged, once the PDDL files were written and the planner
    run returned. *)
Theorem solve_plan_error_propagates
  (result_status : Problem -> option SequentialPlan -> outcome Status)
  (pb : Problem) (tmo : option Time) (hs : bool) (w : world Time)
  (res : ExecutionResult) (k : bool) (sk : list text) (content : text) (e : up_error) :
  write_pddl pb needs_requirements = Returns tt ->
  RUN (exec w (solve_command get_cmd w)) tmo hs (start_time w) = Returns (res, k, sk) ->
  plan_file w = Some content ->
  plan_from_file cls_name pb content = Raises e ->
  SOLVE result_status pb tmo hs w = Raises e.
Proof.
  intros Hw Hr Hf Hp. unfold solve, read_plan. rewrite Hw. simpl. rewrite Hr. simpl.
  rewrite Hf, Hp. reflexivity.
Qed.

(** X20: [_result_status] is not consulted when the run timed out with a
    nonzero exit code: any two classifiers give the same outcome. *)
Theorem solve_timeout_skips_classifier
  (rs1 rs2 : Problem -> option SequentialPlan -> outcome Status)
  (pb : Problem) (tmo : option Time) (hs : bool) (w : world Time)
  (res : ExecutionResult) (k : bool) (sk : list text) :
  RUN (exec w (solve_command get_cmd w)) tmo hs (start_time w) = Returns (res, k, sk) ->
  timeout_occurred res = true -> retval res <> 0%Z ->
  SOLVE rs1 pb tmo hs w = SOLVE rs2 pb tmo hs w.
Proof.
  intros Hr Ht Hc. unfold solve.
  destruct (write_pddl pb needs_requirements) as [[]| |]; [|reflexivity|reflexivity].
  simpl. rewrite Hr. simpl.
  destruct (read_plan cls_name pb w) as [p| |]; [|reflexivity|reflexivity].
  simpl. rewrite Ht. apply Z.eqb_neq in Hc. rewrite Hc. reflexivity.
Qed.

End SolveMore.

(** * The groups [match_action] captures *)

Lemma py_split_tok_chars (g : text) :
  forallb (fun c => is_space c || is_tok c) g = true ->
  Forall (fun p => p <> [] /\ forallb is_tok p = true) (py_split g).
Proof.
  intros Hg. destruct (py_split_tokens_aux g) as [Hw Hcat].
  apply Forall_forall. intros p Hp.
  destruct (proj1 (Forall_forall _ _) Hw p Hp) as [Hne Hns]. split; [exact Hne|].
  apply forallb_forall. intros c Hc.
  assert (Hin : In c (filter (fun c => negb (is_space c)) g)).
  { rewrite <- Hcat. apply in_concat. exists p. split; assumption. }
  apply filter_In in Hin as [Hin Hsp].
  pose proof (proj1 (forallb_forall _ _) Hg c Hin) as Hc'. cbn beta in Hc'.
  destruct (is_space c); [discriminate | exact Hc'].
Qed.

(** X22: when a line matches [ACTION_RE], the action name it captures is
    a non-empty run of [[\w?-]] characters, and splitting the parameter
    group on whitespace gives non-empty runs of the same characters: these
    are the strings handed to [problem.action] and [problem.object]. *)
Theorem action_groups_are_tokens (line name params : text) :
  match_action line = Some (name, params) ->
  name <> [] /\ forallb is_tok name = true /\
  Forall (fun p => p <> [] /\ forallb is_tok p = true) (py_split params).
Proof.
  unfold match_action. destruct (snd (span is_space line)) as [|c r2]; [discriminate|].
  destruct (Ascii.eqb c lparen); [|discriminate].
  destruct (span is_tok (snd (span is_space r2))) as [nm r4] eqn:E4.
  destruct (span_spec _ _ _ _ E4) as (_ & Hnm & _).
  destruct nm as [|n nm']; [discriminate|].
  destruct (params_group (List.length r4) r4) as [g2 r5] eqn:E5.
  destruct (snd (span is_space r5)) as [|c' r7]; [discriminate|].
  destruct (Ascii.eqb c' rparen && forallb is_space r7); [|discriminate].
  intros H. injection H as <- <-.
  split; [discriminate|]. split; [exact Hnm|].
  exact (py_split_tok_chars _ (params_group_chars _ _ _ _ E5)).
Qed.

(** * Instances of the further properties *)

Lemma newline_conventions_agree_witness :
  forallb (fun c => negb (is_cr c)) (lines ["(move a b)"%string; "(move b a)"%string]) = true /\
  plan_from_file demo_cls demo_problem (crlf_encode (lines ["(move a b)"%string; "(move b a)"%string])) =
    plan_from_file demo_cls demo_problem (lines ["(move a b)"%string; "(move b a)"%string]) /\
  plan_from_file demo_cls demo_problem (cr_encode (lines ["(move a b)"%string; "(move b a)"%string])) =
    plan_from_file demo_cls demo_problem (lines ["(move a b)"%string; "(move b a)"%string]).
Proof.
  assert (H : forallb (fun c => negb (is_cr c)) (lines ["(move a b)"%string; "(move b a)"%string]) = true)
    by (vm_compute; reflexivity).
  split; [exact H|].
  exact (newline_conventions_agree demo_cls demo_problem _ H).
Defined.

Lemma patterns_disjoint_witness :
  match_blank (t "  ; note" ++ [lf]) = true /\ match_action (t "  ; note" ++ [lf]) = None.
Proof.
  assert (H : match_blank (t "  ; note" ++ [lf]) = true) by (vm_compute; reflexivity).
  split; [exact H | exact (patterns_disjoint _ H)].
Defined.

Lemma leading_whitespace_ignored_witness :
  forallb is_space (t "  ") = true /\
  match_blank (t "  " ++ t "(move a b)") = match_blank (t "(move a b)") /\
  match_action (t "  " ++ t "(move a b)") = match_action (t "(move a b)").
Proof.
  assert (H : forallb is_space (t "  ") = true) by (vm_compute; reflexivity).
  split; [exact H | exact (leading_whitespace_ignored _ _ H)].
Defined.

Lemma trailing_whitespace_ignored_witness :
  forallb is_space (t " ") = true /\
  match_action (t "(move a b)" ++ t " ") = match_action (t "(move a b)") /\
  match_blank (t "; note" ++ t " ") = match_blank (t "; note").
Proof.
  assert (H : forallb is_space (t " ") = true) by (vm_compute; reflexivity).
  split; [exact H|]. split.
  - exact (proj1 (trailing_whitespace_ignored (t "(move a b)") _ H)).
  - exact (proj2 (trailing_whitespace_ignored (t "; note") _ H)
                 ltac:(vm_compute; reflexivity) ltac:(vm_compute; reflexivity)).
Defined.

Lemma plan_file_concat_witness :
  (lines ["(move a b)"%string] = [] \/ exists a0, lines ["(move a b)"%string] = a0 ++ [lf]) /\
  plan_from_file demo_cls demo_problem (lines ["(move a b)"%string] ++ lines ["(move b a)"%string]) =
  (p1 <- plan_from_file demo_cls demo_problem (lines ["(move a b)"%string]) ;;
   p2 <- plan_from_file demo_cls demo_problem (lines ["(move b a)"%string]) ;;
   Returns (mkSequentialPlan (plan_actions p1 ++ plan_actions p2))).
Proof.
  assert (H : lines ["(move a b)"%string] = [] \/ exists a0, lines ["(move a b)"%string] = a0 ++ [lf])
    by (right; exists (t "(move a b)"); reflexivity).
  split; [exact H | exact (plan_file_concat demo_cls demo_problem _ _ H)].
Defined.

(** A run that prints two lines and is killed at the deadline check of the
    second cycle. *)
Lemma run_outputs_same_length_witness :
  run_command Z.sub Z.geb demo_decode
    (Spawned (mkChild [demo_cycle (t "searching") [] 3%Z; demo_cycle (t "still") [] 7%Z;
                       demo_cycle [] [] 9%Z] false (-9)%Z)) (Some 5%Z) true 0%Z =
    Returns (mkExecutionResult true ([t "searching"; t "still"], [[]; []]) (-9)%Z, true,
             [t "searching"; []; t "still"; []]) /\
  List.length (fst (outputs (mkExecutionResult true ([t "searching"; t "still"], [[]; []]) (-9)%Z))) =
  List.length (snd (outputs (mkExecutionResult true ([t "searching"; t "still"], [[]; []]) (-9)%Z))).
Proof.
  assert (H : run_command Z.sub Z.geb demo_decode
    (Spawned (mkChild [demo_cycle (t "searching") [] 3%Z; demo_cycle (t "still") [] 7%Z;
                       demo_cycle [] [] 9%Z] false (-9)%Z)) (Some 5%Z) true 0%Z =
    Returns (mkExecutionResult true ([t "searching"; t "still"], [[]; []]) (-9)%Z, true,
             [t "searching"; []; t "still"; []])) by (vm_compute; reflexivity).
  split; [exact H | exact (run_outputs_same_length Z.sub Z.geb demo_decode _ _ _ _ _ _ _ H)].
Defined.

Lemma run_kill_iff_timeout_witness :
  run_command Z.sub Z.geb demo_decode
    (Spawned (mkChild [demo_cycle (t "searching") [] 3%Z; demo_cycle (t "still") [] 7%Z;
                       demo_cycle [] [] 9%Z] false (-9)%Z)) (Some 5%Z) true 0%Z =
    Returns (mkExecutionResult true ([t "searching"; t "still"], [[]; []]) (-9)%Z, true,
             [t "searching"; []; t "still"; []]) /\
  true = timeout_occurred (mkExecutionResult true ([t "searching"; t "still"], [[]; []]) (-9)%Z) /\
  (Some 5%Z = None ->
   timeout_occurred (mkExecutionResult true ([t "searching"; t "still"], [[]; []]) (-9)%Z) = false).
Proof.
  assert (H : run_command Z.sub Z.geb demo_decode
    (Spawned (mkChild [demo_cycle (t "searching") [] 3%Z; demo_cycle (t "still") [] 7%Z;
                       demo_cycle [] [] 9%Z] false (-9)%Z)) (Some 5%Z) true 0%Z =
    Returns (mkExecutionResult true ([t "searching"; t "still"], [[]; []]) (-9)%Z, true,
             [t "searching"; []; t "still"; []])) by (vm_compute; reflexivity).
  split; [exact H | exact (run_kill_iff_timeout Z.sub Z.geb demo_decode _ _ _ _ _ _ _ H)].
Defined.

Lemma run_output_stream_mirrors_witness :
  run_command Z.sub Z.geb demo_decode
    (Spawned (mkChild [demo_cycle (t "searching") [] 3%Z; demo_cycle (t "still") [] 7%Z;
                       demo_cycle [] [] 9%Z] false (-9)%Z)) (Some 5%Z) true 0%Z =
    Returns (mkExecutionResult true ([t "searching"; t "still"], [[]; []]) (-9)%Z, true,
             [t "searching"; []; t "still"; []]) /\
  [t "searching"; []; t "still"; []] =
    interleave [t "searching"; t "still"] [[]; []].
Proof.
  assert (H : run_command Z.sub Z.geb demo_decode
    (Spawned (mkChild [demo_cycle (t "searching") [] 3%Z; demo_cycle (t "still") [] 7%Z;
                       demo_cycle [] [] 9%Z] false (-9)%Z)) (Some 5%Z) true 0%Z =
    Returns (mkExecutionResult true ([t "searching"; t "still"], [[]; []]) (-9)%Z, true,
             [t "searching"; []; t "still"; []])) by (vm_compute; reflexivity).
  split; [exact H | exact (run_output_stream_mirrors Z.sub Z.geb demo_decode _ _ _ _ _ _ _ H)].
Defined.

Lemma unreached_timeout_irrelevant_witness :
  (forall c, In c [demo_cycle (t "x") [] 1%Z; demo_cycle [] [] 2%Z] ->
             Z.geb (Z.sub (clock c) 0%Z) 5%Z = false) /\
  run_command Z.sub Z.geb demo_decode
    (Spawned (mkChild [demo_cycle (t "x") [] 1%Z; demo_cycle [] [] 2%Z] false 0%Z)) (Some 5%Z) true 0%Z =
  run_command Z.sub Z.geb demo_decode
    (Spawned (mkChild [demo_cycle (t "x") [] 1%Z; demo_cycle [] [] 2%Z] false 0%Z)) None true 0%Z.
Proof.
  assert (H : forall c, In c [demo_cycle (t "x") [] 1%Z; demo_cycle [] [] 2%Z] ->
                        Z.geb (Z.sub (clock c) 0%Z) 5%Z = false).
  { intros c Hc. destruct Hc as [<-|[<-|[]]]; reflexivity. }
  split; [exact H|].
  exact (unreached_timeout_irrelevant Z.sub Z.geb demo_decode
           (mkChild [demo_cycle (t "x") [] 1%Z; demo_cycle [] [] 2%Z] false 0%Z) 5%Z true 0%Z H).
Defined.

Lemma run_until_eof_witness :
  Forall (fun c => eof_cycle c = false /\ demo_decode (read_line (read_stdout c)) <> None /\
                   demo_decode (read_line (read_stderr c)) <> None)
    [demo_cycle (t "x") (t "y") 1%Z] /\
  eof_cycle (demo_cycle [] [] 2%Z) = true /\
  exists sk, run_command Z.sub Z.geb demo_decode
    (Spawned (mkChild ([demo_cycle (t "x") (t "y") 1%Z] ++ demo_cycle [] [] 2%Z :: [demo_cycle (t "z") [] 3%Z])
                      false 0%Z)) None true 0%Z =
    Returns (mkExecutionResult false
               (map (fun c => decoded_line demo_decode (read_stdout c)) [demo_cycle (t "x") (t "y") 1%Z],
                map (fun c => decoded_line demo_decode (read_stderr c)) [demo_cycle (t "x") (t "y") 1%Z]) 0%Z,
             false, sk).
Proof.
  assert (H1 : Forall (fun c => eof_cycle c = false /\ demo_decode (read_line (read_stdout c)) <> None /\
                                demo_decode (read_line (read_stderr c)) <> None)
                 [demo_cycle (t "x") (t "y") 1%Z]).
  { constructor; [split; [reflexivity | split; discriminate] | constructor]. }
  assert (H2 : eof_cycle (demo_cycle [] [] 2%Z) = true) by reflexivity.
  split; [exact H1|]. split; [exact H2|].
  exact (run_until_eof Z.sub Z.geb demo_decode _ [demo_cycle (t "z") [] 3%Z] _ false 0%Z true 0%Z H1 H2).
Defined.

Lemma run_decode_error_witness :
  Forall (fun c => eof_cycle c = false /\ ascii_decode (read_line (read_stdout c)) <> None /\
                   ascii_decode (read_line (read_stderr c)) <> None)
    [demo_cycle (t "x") (t "y") 1%Z] /\
  (forall c', In c' [demo_cycle (t "x") (t "y") 1%Z] -> Z.geb (Z.sub (clock c') 0%Z) 5%Z = false) /\
  eof_cycle (demo_cycle [Ascii.ascii_of_nat 200] [] 2%Z) = false /\
  ascii_decode (read_line (read_stdout (demo_cycle [Ascii.ascii_of_nat 200] [] 2%Z))) = None /\
  run_command Z.sub Z.geb ascii_decode
    (Spawned (mkChild ([demo_cycle (t "x") (t "y") 1%Z] ++ demo_cycle [Ascii.ascii_of_nat 200] [] 2%Z ::
                       [demo_cycle [] [] 3%Z]) false 0%Z)) (Some 5%Z) true 0%Z =
    Raises (DecodeError [Ascii.ascii_of_nat 200]).
Proof.
  assert (H1 : Forall (fun c => eof_cycle c = false /\ ascii_decode (read_line (read_stdout c)) <> None /\
                                ascii_decode (read_line (read_stderr c)) <> None)
                 [demo_cycle (t "x") (t "y") 1%Z]).
  { constructor; [split; [reflexivity | split; vm_compute; discriminate] | constructor]. }
  assert (H2 : forall c', In c' [demo_cycle (t "x") (t "y") 1%Z] ->
                          Z.geb (Z.sub (clock c') 0%Z) 5%Z = false).
  { intros c' Hc'. destruct Hc' as [<-|[]]. reflexivity. }
  assert (H3 : eof_cycle (demo_cycle [Ascii.ascii_of_nat 200] [] 2%Z) = false) by reflexivity.
  assert (H4 : ascii_decode (read_line (read_stdout (demo_cycle [Ascii.ascii_of_nat 200] [] 2%Z))) = None)
    by (vm_compute; reflexivity).
  split; [exact H1|]. split; [exact H2|]. split; [exact H3|]. split; [exact H4|].
  exact (proj1 (run_decode_error Z.sub Z.geb ascii_decode _ [demo_cycle [] [] 3%Z] _ false 0%Z
                  (Some 5%Z) true 0%Z H1 H2 H3) H4).
Defined.

Lemma solve_plan_mirrors_plan_file_witness :
  demo_solve demo_problem (Some 5%Z) false demo_timed_out_world = Returns demo_timed_out_result /\
  exists p, plan_from_file demo_cls demo_problem (lines ["(move a b)"%string]) = Returns p /\
            plan demo_timed_out_result = Some p.
Proof.
  assert (H : demo_solve demo_problem (Some 5%Z) false demo_timed_out_world =
              Returns demo_timed_out_result) by (vm_compute; reflexivity).
  split; [exact H|].
  exact (solve_plan_mirrors_plan_file Z.sub Z.geb demo_decode demo_cls demo_solver_name true
           demo_write demo_cmd demo_status demo_problem (Some 5%Z) false demo_timed_out_world
           demo_timed_out_result H).
Defined.

(** A run that ends at once and leaves a plan file with a line in the bare
    [move a b] form. *)
Lemma solve_plan_error_propagates_witness :
  demo_write demo_problem true = Returns tt /\
  run_command Z.sub Z.geb demo_decode
    (exec (demo_world (Spawned (mkChild [demo_cycle [] [] 1%Z] false 0%Z)) (Some (lines ["move a b"%string])))
       (solve_command demo_cmd
          (demo_world (Spawned (mkChild [demo_cycle [] [] 1%Z] false 0%Z)) (Some (lines ["move a b"%string])))))
    None false 0%Z = Returns (mkExecutionResult false ([], []) 0%Z, false, []) /\
  plan_from_file demo_cls demo_problem (lines ["move a b"%string]) =
    Raises (UPException (parse_error_message demo_cls)) /\
  demo_solve demo_problem None false
    (demo_world (Spawned (mkChild [demo_cycle [] [] 1%Z] false 0%Z)) (Some (lines ["move a b"%string]))) =
    Raises (UPException (parse_error_message demo_cls)).
Proof.
  assert (H1 : demo_write demo_problem true = Returns tt) by reflexivity.
  assert (H2 : run_command Z.sub Z.geb demo_decode
    (exec (demo_world (Spawned (mkChild [demo_cycle [] [] 1%Z] false 0%Z)) (Some (lines ["move a b"%string])))
       (solve_command demo_cmd
          (demo_world (Spawned (mkChild [demo_cycle [] [] 1%Z] false 0%Z)) (Some (lines ["move a b"%string])))))
    None false 0%Z = Returns (mkExecutionResult false ([], []) 0%Z, false, [])) by (vm_compute; reflexivity).
  assert (H4 : plan_from_file demo_cls demo_problem (lines ["move a b"%string]) =
               Raises (UPException (parse_error_message demo_cls))) by (vm_compute; reflexivity).
  split; [exact H1|]. split; [exact H2|]. split; [exact H4|].
  exact (solve_plan_error_propagates Z.sub Z.geb demo_decode demo_cls demo_solver_name true
           demo_write demo_cmd demo_status demo_problem None false
           (demo_world (Spawned (mkChild [demo_cycle [] [] 1%Z] false 0%Z)) (Some (lines ["move a b"%string])))
           _ _ _ _ _ H1 H2 eq_refl H4).
Defined.

Lemma solve_timeout_skips_classifier_witness :
  run_command Z.sub Z.geb demo_decode
    (exec demo_timed_out_world (solve_command demo_cmd demo_timed_out_world))
    (Some 5%Z) false (start_time demo_timed_out_world) =
    Returns (mkExecutionResult true ([t "searching"], [[]]) (-9)%Z, true, []) /\
  timeout_occurred (mkExecutionResult true ([t "searching"], [[]]) (-9)%Z) = true /\
  retval (mkExecutionResult true ([t "searching"], [[]]) (-9)%Z) <> 0%Z /\
  demo_solve demo_problem (Some 5%Z) false demo_timed_out_world =
  solve Z.sub Z.geb demo_decode demo_cls demo_solver_name true demo_write demo_cmd
    (fun _ _ => Raises (UPException (t "unused"))) demo_problem (Some 5%Z) false demo_timed_out_world.
Proof.
  assert (H1 : run_command Z.sub Z.geb demo_decode
    (exec demo_timed_out_world (solve_command demo_cmd demo_timed_out_world))
    (Some 5%Z) false (start_time demo_timed_out_world) =
    Returns (mkExecutionResult true ([t "searching"], [[]]) (-9)%Z, true, [])) by (vm_compute; reflexivity).
  assert (H2 : timeout_occurred (mkExecutionResult true ([t "searching"], [[]]) (-9)%Z) = true)
    by reflexivity.
  assert (H3 : retval (mkExecutionResult true ([t "searching"], [[]]) (-9)%Z) <> 0%Z) by (simpl; lia).
  split; [exact H1|]. split; [exact H2|]. split; [exact H3|].
  exact (solve_timeout_skips_classifier Z.sub Z.geb demo_decode demo_cls demo_solver_name true
           demo_write demo_cmd demo_status (fun _ _ => Raises (UPException (t "unused")))
           demo_problem (Some 5%Z) false demo_timed_out_world _ _ _ H1 H2 H3).
Defined.

Lemma action_groups_are_tokens_witness :
  match_action (t " ( move a  b ) ") = Some (t "move", t " a  b") /\
  t "move" <> [] /\ forallb is_tok (t "move") = true /\
  Forall (fun p => p <> [] /\ forallb is_tok p = true) (py_split (t " a  b")).
Proof.
  assert (H : match_action (t " ( move a  b ) ") = Some (t "move", t " a  b")) by (vm_compute; reflexivity).
  split; [exact H | exact (action_groups_are_tokens _ _ _ H)].
Defined.

(** * Blank lines and line ends in every newline convention *)

Lemma translate_cons (c : ascii) (s : text) :
  translate_newlines (c :: s) =
  if is_cr c then
    match s with
    | c2 :: s'' => if is_lf c2 then lf :: translate_newlines s'' else lf :: translate_newlines s
    | [] => [lf]
    end
  else c :: translate_newlines s.
Proof. reflexivity. Qed.

Lemma translate_line_lf (b s : text) :
  forallb (fun c => negb (is_cr c)) b = true ->
  translate_newlines (b ++ lf :: s) = b ++ lf :: translate_newlines s.
Proof.
  induction b as [|c b IH]; intros Hb; [reflexivity|].
  simpl in Hb. apply andb_true_iff in Hb as [Hc Hb].
  cbn [app]. rewrite translate_cons. destruct (is_cr c); [discriminate|].
  rewrite (IH Hb). reflexivity.
Qed.

Lemma translate_line_crlf (b s : text) :
  forallb (fun c => negb (is_cr c)) b = true ->
  translate_newlines (b ++ cr :: lf :: s) = b ++ lf :: translate_newlines s.
Proof.
  induction b as [|c b IH]; intros Hb; [reflexivity|].
  simpl in Hb. apply andb_true_iff in Hb as [Hc Hb].
  cbn [app]. rewrite translate_cons. destruct (is_cr c); [discriminate|].
  rewrite (IH Hb). reflexivity.
Qed.

Lemma translate_snoc_cr (t : text) :
  translate_newlines (t ++ [cr]) = translate_newlines t ++ [lf].
Proof.
  remember (List.length t) as n eqn:En. revert t En.
  induction n as [n IH] using lt_wf_ind. intros [|c t'] En; [reflexivity|].
  cbn [app]. rewrite (translate_cons c (t' ++ [cr])), (translate_cons c t').
  destruct (is_cr c).
  - destruct t' as [|c2 t'']; [reflexivity|].
    cbn [app]. cbv iota beta. destruct (is_lf c2).
    + rewrite (IH (List.length t'') ltac:(subst n; simpl; lia) t'' eq_refl). reflexivity.
    + change (c2 :: t'' ++ [cr]) with ((c2 :: t'') ++ [cr]).
      rewrite (IH (List.length (c2 :: t'')) ltac:(subst n; simpl; lia) (c2 :: t'') eq_refl).
      reflexivity.
  - rewrite (IH (List.length t') ltac:(subst n; simpl; lia) t' eq_refl). reflexivity.
Qed.

Lemma translate_snoc_crlf (t : text) :
  translate_newlines (t ++ [cr; lf]) = translate_newlines (t ++ [cr]).
Proof.
  remember (List.length t) as n eqn:En. revert t En.
  induction n as [n IH] using lt_wf_ind. intros [|c t'] En; [reflexivity|].
  cbn [app]. rewrite (translate_cons c (t' ++ [cr; lf])), (translate_cons c (t' ++ [cr])).
  destruct (is_cr c).
  - destruct t' as [|c2 t'']; [reflexivity|].
    cbn [app]. cbv iota beta. destruct (is_lf c2).
    + rewrite (IH (List.length t'') ltac:(subst n; simpl; lia) t'' eq_refl). reflexivity.
    + change (c2 :: t'' ++ [cr; lf]) with ((c2 :: t'') ++ [cr; lf]).
      change (c2 :: t'' ++ [cr]) with ((c2 :: t'') ++ [cr]).
      rewrite (IH (List.length (c2 :: t'')) ltac:(subst n; simpl; lia) (c2 :: t'') eq_refl).
      reflexivity.
  - rewrite (IH (List.length t') ltac:(subst n; simpl; lia) t' eq_refl). reflexivity.
Qed.

(** A line end appended to a text either ends one more line of its
    translation or, as the [\n] of a [\r\n] whose [\r] ends the text,
    changes nothing. *)
Lemma translate_final_newline (t term : text) :
  term = [lf] \/ term = [cr; lf] \/ term = [cr] ->
  translate_newlines (t ++ term) = translate_newlines t ++ [lf] \/
  translate_newlines (t ++ term) = translate_newlines t.
Proof.
  intros [H|[H|H]]; subst term.
  - destruct t as [|x a] using rev_ind; [left; reflexivity|].
    destruct (is_cr x) eqn:Hx.
    + apply is_cr_true in Hx. subst x. right. rewrite <- app_assoc. cbn [app].
      rewrite translate_snoc_crlf. reflexivity.
    + left. rewrite translate_newlines_app; [reflexivity|].
      intros a0 Ha0. apply app_inj_tail in Ha0 as [_ Hx']. subst x.
      vm_compute in Hx. discriminate Hx.
  - left. rewrite translate_snoc_crlf. apply translate_snoc_cr.
  - left. apply translate_snoc_cr.
Qed.

Lemma text_last_line (s : text) :
  exists t1 b, s = t1 ++ b /\ (t1 = [] \/ exists a0, t1 = a0 ++ [lf]) /\
               forallb (fun c => negb (is_lf c)) b = true.
Proof.
  induction s as [|x s IH] using rev_ind.
  - exists [], []. split; [reflexivity|]. split; [left; reflexivity | reflexivity].
  - destruct IH as (t1 & b & -> & Ht1 & Hb).
    destruct (is_lf x) eqn:Hx.
    + exists ((t1 ++ b) ++ [x]), []. apply is_lf_true in Hx. subst x.
      split; [rewrite app_nil_r; reflexivity|].
      split; [right; exists (t1 ++ b); reflexivity | reflexivity].
    + exists t1, (b ++ [x]). split; [rewrite app_assoc; reflexivity|]. split; [exact Ht1|].
      rewrite forallb_app, Hb. simpl. rewrite Hx. reflexivity.
Qed.

Lemma plan_from_file_translate (cls_name : text) (pb : Problem) (x y : text) :
  translate_newlines x = translate_newlines y ->
  plan_from_file cls_name pb x = plan_from_file cls_name pb y.
Proof. intros H. unfold plan_from_file, readlines. rewrite H. reflexivity. Qed.

Lemma forallb_no_cr_app_inv (a b : text) :
  forallb (fun c => negb (is_cr c)) (a ++ b) = true ->
  forallb (fun c => negb (is_cr c)) a = true /\ forallb (fun c => negb (is_cr c)) b = true.
Proof. rewrite forallb_app. apply andb_true_iff. Qed.

Lemma split_lines_concat_lf (L : list text) (s : text) :
  Forall (fun x => exists b, forallb (fun c => negb (is_lf c)) b = true /\ x = b ++ [lf]) L ->
  split_lines (List.concat L ++ s) = L ++ split_lines s.
Proof.
  induction 1 as [|x L [b [Hb ->]] _ IH]; [reflexivity|].
  cbn [List.concat]. rewrite <- (app_assoc (b ++ [lf])).
  rewrite split_lines_app by (right; exists b; reflexivity).
  rewrite (proj1 (split_lines_no_lf b Hb)), IH. reflexivity.
Qed.

Lemma readline_ends_lf (s x : text) :
  In x (split_lines s) -> (exists b, x = b ++ [lf]) ->
  exists b, forallb (fun c => negb (is_lf c)) b = true /\ x = b ++ [lf].
Proof.
  intros Hin [b Hxb]. destruct (split_lines_shape s x Hin) as [_ [b' [Hb' [Hx|Hx]]]].
  - exists b'. split; assumption.
  - rewrite <- Hx, Hxb, forallb_app in Hb'. apply andb_true_iff in Hb' as [_ Hl].
    vm_compute in Hl. discriminate Hl.
Qed.

Lemma readline_single (s z : text) :
  In z (split_lines s) -> split_lines z = [z].
Proof.
  intros Hin. destruct (split_lines_shape s z Hin) as [Hne [b [Hb [->| ->]]]].
  - exact (proj1 (split_lines_no_lf b Hb)).
  - rewrite (proj2 (split_lines_no_lf b Hb)). destruct b; [congruence|reflexivity].
Qed.

(** The lines [readlines] yields, one of them left out, are the lines of
    their concatenation. *)
Lemma readlines_remove_line (content : text) (ls1 ls2 : list text) (l : text) :
  readlines content = ls1 ++ l :: ls2 ->
  readlines (List.concat (ls1 ++ ls2)) = ls1 ++ ls2.
Proof.
  intros H.
  assert (Hin : forall x, In x (ls1 ++ l :: ls2) -> In x (split_lines (translate_newlines content)))
    by (intros x Hx; fold (readlines content); rewrite H; exact Hx).
  assert (Hnocr : forallb (fun c => negb (is_cr c)) (List.concat (ls1 ++ ls2)) = true).
  { apply forallb_forall. intros c Hc. apply in_concat in Hc as [x [Hx Hcx]].
    apply (proj1 (forallb_forall _ _) (translate_newlines_out_no_cr content)).
    rewrite <- (concat_split_lines (translate_newlines content)). apply in_concat.
    exists x. split; [|exact Hcx]. apply Hin.
    apply in_app_or in Hx as [Hx|Hx]; apply in_or_app; [left | right; right]; exact Hx. }
  unfold readlines. rewrite (translate_newlines_no_cr _ Hnocr).
  assert (H1 : Forall (fun x => exists b, forallb (fun c => negb (is_lf c)) b = true /\ x = b ++ [lf]) ls1).
  { apply Forall_forall. intros x Hx.
    destruct (exists_last (l := l :: ls2) ltac:(discriminate)) as [M [z Hz]].
    apply (readline_ends_lf (translate_newlines content)).
    - apply Hin. apply in_or_app. left. exact Hx.
    - apply (split_lines_last (translate_newlines content) (ls1 ++ M) z).
      + fold (readlines content). rewrite H, Hz, app_assoc. reflexivity.
      + apply in_or_app. left. exact Hx. }
  rewrite concat_app, (split_lines_concat_lf ls1 _ H1). f_equal.
  destruct ls2 as [|z M2 _] using rev_ind; [reflexivity|].
  assert (H2 : Forall (fun x => exists b, forallb (fun c => negb (is_lf c)) b = true /\ x = b ++ [lf]) M2).
  { apply Forall_forall. intros x Hx.
    apply (readline_ends_lf (translate_newlines content)).
    - apply Hin. apply in_or_app. right. right. apply in_or_app. left. exact Hx.
    - apply (split_lines_last (translate_newlines content) (ls1 ++ l :: M2) z).
      + fold (readlines content). rewrite H, <- app_assoc. reflexivity.
      + apply in_or_app. right. right. exact Hx. }
  rewrite concat_app. cbn [List.concat]. rewrite app_nil_r.
  rewrite <- (app_nil_r (List.concat M2 ++ z)), <- app_assoc.
  rewrite (split_lines_concat_lf M2 _ H2), app_nil_r. f_equal.
  apply (readline_single (translate_newlines content)). apply Hin.
  apply in_or_app. right. right. apply in_or_app. right. left. reflexivity.
Qed.

Lemma readlines_blank_matches (content l : text) :
  In l (readlines content) -> blank_or_comment l = true -> match_blank l = true.
Proof.
  intros Hin Hbc. destruct (split_lines_shape _ l Hin) as [_ [b [Hb [->| ->]]]].
  - exact (match_blank_of_blank_or_comment _ (proj1 (dot_star_end_no_lf b Hb)) Hbc).
  - exact (match_blank_of_blank_or_comment _ (proj2 (dot_star_end_no_lf b Hb)) Hbc).
Qed.

Section BlankLines.

Variable cls_name : text.
Variable pb : Problem.

(** C7: a line that, once whitespace is trimmed, is empty or begins with
    [;] always matches the comment regex, and deleting it from the plan
    text leaves the outcome of the parse unchanged (the same plan, or the
    same error).  In general: for any line [l] among those [readlines]
    yields for a text, whatever newline convention the text uses, the text
    made of the other lines has exactly those lines, and parses as the
    original.  Written out for a line [b] between a prefix [t1] that ends a
    line and any suffix [t2]: removing [b ++ "\n"] or [b ++ "\r\n"] changes
    nothing, and neither does removing a last line [b] without a line
    end. *)
Theorem blank_line_irrelevant :
  (forall (content : text) (ls1 ls2 : list text) (l : text),
     readlines content = ls1 ++ l :: ls2 -> blank_or_comment l = true ->
     match_blank l = true /\
     readlines (List.concat (ls1 ++ ls2)) = ls1 ++ ls2 /\
     plan_from_file cls_name pb content = plan_from_file cls_name pb (List.concat (ls1 ++ ls2))) /\
  (forall t1 t2 b : text,
     (t1 = [] \/ exists a0, t1 = a0 ++ [lf]) ->
     forallb (fun c => negb (is_lf c) && negb (is_cr c)) b = true ->
     blank_or_comment b = true ->
     match_blank (b ++ [lf]) = true /\ match_blank b = true /\
     plan_from_file cls_name pb (t1 ++ (b ++ [lf]) ++ t2) = plan_from_file cls_name pb (t1 ++ t2) /\
     plan_from_file cls_name pb (t1 ++ (b ++ [cr; lf]) ++ t2) = plan_from_file cls_name pb (t1 ++ t2) /\
     plan_from_file cls_name pb (t1 ++ b) = plan_from_file cls_name pb t1).
Proof.
  split.
  - intros content ls1 ls2 l H Hbc.
    assert (Hm : match_blank l = true).
    { apply (readlines_blank_matches content); [|exact Hbc].
      rewrite H. apply in_or_app. right. left. reflexivity. }
    split; [exact Hm|]. split; [exact (readlines_remove_line content ls1 ls2 l H)|].
    unfold plan_from_file at 1 2.
    rewrite H, (readlines_remove_line content ls1 ls2 l H), plan_from_lines_drop_blank by exact Hm.
    reflexivity.
  - intros t1 t2 b Ht1 Hb Hbc.
    destruct (readlines_around_line t1 t2 b Ht1 Hb) as (Hmid & Hcut & Hlast).
    assert (Hlf : forallb (fun c => negb (is_lf c)) b = true).
    { apply forallb_forall. intros c Hc. apply (proj1 (forallb_forall _ b) Hb) in Hc.
      apply andb_true_iff in Hc. apply Hc. }
    assert (Hcr : forallb (fun c => negb (is_cr c)) b = true).
    { apply forallb_forall. intros c Hc. apply (proj1 (forallb_forall _ b) Hb) in Hc.
      apply andb_true_iff in Hc. apply Hc. }
    destruct (dot_star_end_no_lf b Hlf) as [Hd1 Hd2].
    assert (Hbc' : blank_or_comment (b ++ [lf]) = true).
    { unfold blank_or_comment in *.
      rewrite (span_app_all is_space b [lf] ltac:(reflexivity)).
      destruct (forallb is_space b) eqn:Hsp; [reflexivity|].
      destruct (span is_space b) as [a r] eqn:E. cbn [snd] in *.
      destruct r as [|x r]; [apply span_rest_nil in E; congruence|]. exact Hbc. }
    assert (Hm1 : match_blank (b ++ [lf]) = true)
      by exact (match_blank_of_blank_or_comment _ Hd1 Hbc').
    assert (Hm2 : match_blank b = true)
      by exact (match_blank_of_blank_or_comment _ Hd2 Hbc).
    assert (Hlfcase : plan_from_file cls_name pb (t1 ++ (b ++ [lf]) ++ t2) =
                      plan_from_file cls_name pb (t1 ++ t2)).
    { unfold plan_from_file. rewrite Hmid, Hcut, plan_from_lines_drop_blank by exact Hm1.
      reflexivity. }
    split; [exact Hm1|]. split; [exact Hm2|]. split; [exact Hlfcase|]. split.
    + rewrite <- Hlfcase. apply plan_from_file_translate.
      rewrite !(translate_newlines_app t1) by exact (not_ends_cr_of_ends_lf t1 Ht1).
      rewrite <- !app_assoc. cbn [app].
      rewrite translate_line_crlf, translate_line_lf by exact Hcr. reflexivity.
    + unfold plan_from_file. rewrite Hlast.
      destruct b as [|c b']; [rewrite app_nil_r; reflexivity|].
      rewrite <- (app_nil_r (readlines t1)) at 2.
      rewrite plan_from_lines_drop_blank by exact Hm2. reflexivity.
Qed.

End BlankLines.

(** X10: the line end after the last line of a plan file does not
    matter: whether the text ends in ["\n"], ["\r\n"] or ["\r"], it parses
    to the same plan as without that line end, and fails exactly when the
    other fails. *)
Theorem final_newline_irrelevant (cls_name : text) (pb : Problem) (t term : text) :
  term = [lf] \/ term = [cr; lf] \/ term = [cr] ->
  forall p, plan_from_file cls_name pb (t ++ term) = Returns p <->
            plan_from_file cls_name pb t = Returns p.
Proof.
  intros Hterm p.
  destruct (translate_final_newline t term Hterm) as [Htr|Htr].
  - pose proof (translate_newlines_out_no_cr t) as Hnocr.
    destruct (text_last_line (translate_newlines t)) as (t1 & b & Ht & Ht1 & Hb).
    rewrite Ht in Hnocr. apply forallb_no_cr_app_inv in Hnocr as [Hnocr1 Hnocrb].
    assert (Hb' : forallb (fun c => negb (is_lf c) && negb (is_cr c)) b = true).
    { apply forallb_forall. intros c Hc.
      rewrite (proj1 (forallb_forall _ _) Hb c Hc), (proj1 (forallb_forall _ _) Hnocrb c Hc).
      reflexivity. }
    assert (Hnocr : forallb (fun c => negb (is_cr c)) (t1 ++ b ++ [lf]) = true).
    { rewrite !forallb_app, Hnocr1, Hnocrb. reflexivity. }
    assert (Hnocr' : forallb (fun c => negb (is_cr c)) (t1 ++ b) = true).
    { rewrite !forallb_app, Hnocr1, Hnocrb. reflexivity. }
    rewrite (plan_from_file_translate cls_name pb (t ++ term) (t1 ++ b ++ [lf]))
      by (rewrite Htr, Ht, (translate_newlines_no_cr _ Hnocr), app_assoc; reflexivity).
    rewrite (plan_from_file_translate cls_name pb t (t1 ++ b))
      by (rewrite Ht, (translate_newlines_no_cr _ Hnocr'); reflexivity).
    exact (final_newline_lf_aux cls_name pb t1 b Ht1 Hb' p).
  - rewrite (plan_from_file_translate cls_name pb (t ++ term) t Htr). reflexivity.
Qed.

Lemma blank_line_irrelevant_witness :
  readlines (t "(move a b)" ++ [cr; lf] ++ t "; note" ++ [cr; lf] ++ t "(move b a)" ++ [cr; lf]) =
    [t "(move a b)" ++ [lf]] ++ (t "; note" ++ [lf]) :: [t "(move b a)" ++ [lf]] /\
  plan_from_file demo_cls demo_problem
    (t "(move a b)" ++ [cr; lf] ++ t "; note" ++ [cr; lf] ++ t "(move b a)" ++ [cr; lf]) =
  plan_from_file demo_cls demo_problem
    (List.concat ([t "(move a b)" ++ [lf]] ++ [t "(move b a)" ++ [lf]])) /\
  plan_from_file demo_cls demo_problem
    (lines ["(move a b)"%string] ++ (t "  ; note" ++ [cr; lf]) ++ lines ["(move b a)"%string]) =
  plan_from_file demo_cls demo_problem (lines ["(move a b)"%string] ++ lines ["(move b a)"%string]).
Proof.
  assert (H : readlines (t "(move a b)" ++ [cr; lf] ++ t "; note" ++ [cr; lf] ++ t "(move b a)" ++ [cr; lf]) =
    [t "(move a b)" ++ [lf]] ++ (t "; note" ++ [lf]) :: [t "(move b a)" ++ [lf]])
    by (vm_compute; reflexivity).
  destruct (blank_line_irrelevant demo_cls demo_problem) as [Hgen Hraw].
  split; [exact H|]. split.
  - exact (proj2 (proj2 (Hgen _ _ _ _ H ltac:(vm_compute; reflexivity)))).
  - assert (H1 : lines ["(move a b)"%string] = [] \/ exists a0, lines ["(move a b)"%string] = a0 ++ [lf])
      by (right; exists (t "(move a b)"); reflexivity).
    assert (H2 : forallb (fun c => negb (is_lf c) && negb (is_cr c)) (t "  ; note") = true)
      by (vm_compute; reflexivity).
    exact (proj1 (proj2 (proj2 (proj2 (Hraw _ (lines ["(move b a)"%string]) _ H1 H2
                                        ltac:(vm_compute; reflexivity)))))).
Defined.

Lemma final_newline_irrelevant_witness :
  ([cr; lf] = [lf] \/ [cr; lf] = [cr; lf] \/ [cr; lf] = [cr]) /\
  (plan_from_file demo_cls demo_problem (t "(move a b)" ++ [cr; lf] ++ t "(move b a)" ++ [cr; lf]) =
     Returns (mkSequentialPlan [move_instance "a" "b"; move_instance "b" "a"]) <->
   plan_from_file demo_cls demo_problem (t "(move a b)" ++ [cr; lf] ++ t "(move b a)") =
     Returns (mkSequentialPlan [move_instance "a" "b"; move_instance "b" "a"])).
Proof.
  assert (H : [cr; lf] = [lf] \/ [cr; lf] = [cr; lf] \/ [cr; lf] = [cr]) by (right; left; reflexivity).
  split; [exact H|].
  rewrite (app_assoc [cr; lf] (t "(move b a)") [cr; lf]),
    (app_assoc (t "(move a b)") ([cr; lf] ++ t "(move b a)") [cr; lf]).
  exact (final_newline_irrelevant demo_cls demo_problem _ [cr; lf] H _).
Defined.
